(** * OpenClaw-Mem: a shallow embedding of the retrieval and assembly engine

    The development follows the TypeScript sources:
    - [extension/index.ts]  : the plugin-side classifier [classifyToolResult];
    - [worker/server.ts]    : the HTTP handlers, [classifyObservation],
                              [calculateImportance], [truncateForStorage];
    - [database/index.ts]   : the [MemoryDatabase] class over SQLite;
    - [database/schema.sql] : the tables and their constraints.

    Modelling conventions.
    - JS numbers that carry an importance or an FTS5 rank are IEEE-754
      binary64 values, embedded as primitive floats, so that [0.9 + 0.1]
      evaluates exactly as it does in the program.  Row ids, token counts,
      limits and hour ranges are integers ([Z]).
    - JS strings are [string]s; [toLowerCase] maps the ASCII letters.
    - [created_at] / [started_at] are written only by [CURRENT_TIMESTAMP],
      always in the fixed format [YYYY-MM-DD HH:MM:SS], whose text order is
      the chronological order; they are embedded as seconds ([Z]), and so
      is the [since] bound of a search.
    - A table is the list of its rows in rowid order.  [ORDER BY] is a
      stable sort: SQL leaves the order of ties open, the model keeps them
      in rowid order.
    - SQLite's FTS5 engine and the host's date formatting are external:
      they are parameters of the functions that call them.
    - A thrown exception is the [Throw] branch of [Result]. *)

From Stdlib Require Import ZArith String Ascii List Bool Lia PrimFloat.
From Stdlib Require Import Sorting.Sorted Sorting.Permutation DecimalString DecimalPos.
Import ListNotations.

Set Warnings "-inexact-float".
Local Open Scope string_scope.
Local Open Scope Z_scope.

(** ** JavaScript strings *)

Module Js.

Definition lowerChar (c : ascii) : ascii :=
  let n := nat_of_ascii c in
  if (Nat.leb 65 n && Nat.leb n 90)%bool then ascii_of_nat (n + 32) else c.

(** [String.prototype.toLowerCase], on the ASCII letters. *)
Fixpoint toLowerCase (s : string) : string :=
  match s with
  | EmptyString => EmptyString
  | String c s' => String (lowerChar c) (toLowerCase s')
  end.

(** [String.prototype.includes]: [sub] occurs somewhere in [s]. *)
Fixpoint includes (s sub : string) : bool :=
  if String.prefix sub s then true
  else match s with
       | EmptyString => false
       | String _ s' => includes s' sub
       end.

(** [String.prototype.substring(0, n)]. *)
Definition substring0 (n : nat) (s : string) : string := String.substring 0 n s.

(** Truthiness of an optional string: [undefined], [null] and [""] are
    falsy. *)
Definition truthyStr (o : option string) : option string :=
  match o with
  | Some EmptyString => None
  | other => other
  end.

(** Truthiness of an optional integer: [undefined], [null] and [0] are
    falsy. *)
Definition truthyNum (o : option Z) : option Z :=
  match o with
  | Some 0 => None
  | other => other
  end.

(** [a || d] on optional strings and integers, [a ?? d] on any option. *)
Definition orStr (o : option string) (d : string) : string :=
  match truthyStr o with Some s => s | None => d end.

Definition orNum (o : option Z) (d : Z) : Z :=
  match truthyNum o with Some n => n | None => d end.

Definition nullish {A : Type} (o : option A) (d : A) : A :=
  match o with Some a => a | None => d end.

(** Template rendering of an integer, [`${n}`]. *)
Definition showZ (n : Z) : string := NilZero.string_of_int (Z.to_int n).

(** [Array.prototype.join]. *)
Fixpoint join (sep : string) (l : list string) : string :=
  match l with
  | [] => ""
  | [x] => x
  | x :: rest => x ++ sep ++ join sep rest
  end.

End Js.

Import Js.

(** ** Observation classification *)

(** *** Plugin side: [classifyToolResult] of [extension/index.ts] *)

Record Classification := mkClassification {
  c_type : string;
  c_importance : float
}.

Definition classifyToolResult (toolName input output : string) : Classification :=
  let lowerTool := toLowerCase toolName in
  let lowerInput := toLowerCase input in
  let lowerOutput := toLowerCase output in
  if includes lowerInput "fix" || includes lowerOutput "fixed" ||
     includes lowerOutput "resolved" || includes lowerOutput "error"
  then mkClassification "bugfix" 0.9
  else if includes lowerTool "write" || includes lowerTool "edit"
  then mkClassification "code_change" 0.7
  else if includes lowerTool "exec" && includes lowerInput "git"
  then mkClassification "git_operation" 0.6
  else if includes lowerInput "test" || includes lowerOutput "passed" ||
          includes lowerOutput "failed"
  then mkClassification "testing" 0.6
  else if includes lowerTool "search" || includes lowerTool "web_"
  then mkClassification "research" 0.4
  else if includes lowerTool "read"
  then mkClassification "exploration" 0.3
  else mkClassification "tool_use" 0.5.

(** *** Ingestion side: [classifyObservation] and [calculateImportance] of
    [worker/server.ts] *)

Definition classifyObservation (toolName input output : string) : string :=
  let lowerTool := toLowerCase toolName in
  let lowerInput := toLowerCase input in
  let lowerOutput := toLowerCase output in
  if includes lowerTool "write" || includes lowerTool "edit" then
    if includes lowerInput "fix" || includes lowerOutput "fixed" then "bugfix"
    else "code_change"
  else if includes lowerTool "exec" || String.eqb lowerTool "bash" then
    if includes lowerInput "git" then "git_operation"
    else if includes lowerInput "npm" || includes lowerInput "yarn" then "dependency"
    else if includes lowerInput "test" then "testing"
    else "command"
  else if includes lowerTool "read" then "exploration"
  else if includes lowerTool "search" then "research"
  else "tool_use".

(** The own properties of the [typeImportance] object literal. *)
Definition typeImportance : list (string * float) :=
  [ ("bugfix", 0.9%float); ("architecture", 0.9%float);
    ("decision", 0.85%float); ("code_change", 0.7%float);
    ("git_operation", 0.6%float); ("testing", 0.6%float);
    ("dependency", 0.5%float); ("research", 0.4%float);
    ("exploration", 0.3%float); ("command", 0.4%float);
    ("tool_use", 0.5%float) ].

Fixpoint lookup (table : list (string * float)) (key : string) : option float :=
  match table with
  | [] => None
  | (k, v) :: rest => if String.eqb k key then Some v else lookup rest key
  end.

(** [Math.min] on two finite numbers. *)
Definition Math_min (a b : float) : float :=
  if PrimFloat.ltb b a then b else a.

(** [typeImportance[type] || 0.5]: every entry of the table is non-zero,
    so the [||] falls through exactly when [type] is not a key of the
    literal. *)
Definition calculateImportance (type toolName input output : string) : float :=
  let importance := nullish (lookup typeImportance type) 0.5%float in
  let lowerOutput := toLowerCase output in
  let importance :=
    if includes lowerOutput "error" || includes lowerOutput "failed"
    then Math_min (importance + 0.1)%float 1.0%float else importance in
  let importance :=
    if includes lowerOutput "success" || includes lowerOutput "completed"
    then Math_min (importance + 0.05)%float 1.0%float else importance in
  importance.

(** The classification the tool-result path computes when the caller
    supplies neither [type] nor [importance]. *)
Definition classifyIngested (toolName input output : string) : Classification :=
  let obsType := classifyObservation toolName input output in
  mkClassification obsType (calculateImportance obsType toolName input output).

Definition truncateForStorage (text : string) (maxLength : Z) : string :=
  if Z.of_nat (String.length text) <=? maxLength then text
  else substring0 (Z.to_nat maxLength) text ++ "... [truncated]".

Definition truncate (text : option string) (maxLen : nat) : string :=
  match truthyStr text with
  | None => ""
  | Some t => if Nat.leb (String.length t) maxLen then t
              else substring0 maxLen t ++ "..."
  end.

(** ** Thrown exceptions and the store-passing monad *)

Inductive SqliteError :=
| SQLITE_CONSTRAINT_UNIQUE
| SQLITE_CONSTRAINT_FOREIGNKEY
| SQLITE_ERROR_fts5_syntax.

Inductive Result (A : Type) :=
| Ok (a : A)
| Throw (e : SqliteError).

Arguments Ok {A} a.
Arguments Throw {A} e.

(** ** Rows of [schema.sql] *)

Record Session := mkSession {
  s_id : Z;
  session_key : string;
  project_path : option string;
  started_at : Z;
  ended_at : option Z;
  s_summary : option string;
  summary_tokens : option Z;
  s_metadata : option string
}.

Record Observation := mkObservation {
  id : Z;
  session_id : Z;
  type : string;
  tool_name : option string;
  input : option string;
  output : option string;
  summary : option string;
  tokens : option Z;
  importance : float;
  created_at : Z;
  metadata : option string
}.

Record SearchResult := mkSearchResult {
  sr_id : Z;
  sr_type : string;
  sr_tool_name : option string;
  sr_summary : option string;
  sr_created_at : Z;
  sr_importance : float;
  sr_rank : float
}.

(** The database file: both tables in rowid order, and the
    [sqlite_sequence] counters behind [AUTOINCREMENT]. *)
Record Db := mkDb {
  sessions : list Session;
  observations : list Observation;
  seq_sessions : Z;
  seq_observations : Z
}.

Definition emptyDb : Db := mkDb [] [] 0 0.

(** A handler runs against the single shared database handle: it reads and
    updates the store, and either returns or throws.  Statements are not
    wrapped in a transaction, so the store survives a throw. *)
Definition M (A : Type) : Type := Db -> Result A * Db.

Definition ret {A : Type} (a : A) : M A := fun db => (Ok a, db).

Definition throw {A : Type} (e : SqliteError) : M A := fun db => (Throw e, db).

Definition bind {A B : Type} (m : M A) (k : A -> M B) : M B :=
  fun db => match m db with
            | (Ok a, db') => k a db'
            | (Throw e, db') => (Throw e, db')
            end.

Definition tryCatch {A : Type} (body : M A) (handler : SqliteError -> M A) : M A :=
  fun db => match body db with
            | (Ok a, db') => (Ok a, db')
            | (Throw e, db') => handler e db'
            end.

(** A read-only query. *)
Definition query {A : Type} (f : Db -> A) : M A := fun db => (Ok (f db), db).

(** A read-only query that may throw. *)
Definition queryR {A : Type} (f : Db -> Result A) : M A := fun db => (f db, db).

Notation "x <- m ;; k" := (bind m (fun x => k))
  (at level 61, m at next level, right associativity).

(** ** SQL building blocks *)

(** [ORDER BY]: a stable insertion sort; rows that tie keep their rowid
    order. *)
Fixpoint insertBy {A : Type} (le : A -> A -> bool) (x : A) (l : list A) : list A :=
  match l with
  | [] => [x]
  | y :: l' => if le x y then x :: l else y :: insertBy le x l'
  end.

Fixpoint orderBy {A : Type} (le : A -> A -> bool) (l : list A) : list A :=
  match l with
  | [] => []
  | x :: l' => insertBy le x (orderBy le l')
  end.

(** [LIMIT n]: a negative [n] means no limit. *)
Definition sqlLimit {A : Type} (n : Z) (l : list A) : list A :=
  if n <? 0 then l else firstn (Z.to_nat n) l.

(** [datetime(t, '-N hours')] and [datetime(t, '+N hours')], where [N] is the
    number interpolated by the template.  For a negative [N] the modifier
    reads ['--2 hours'] or ['+-2 hours'], which SQLite rejects: the call
    yields [NULL]. *)
Inductive Sign := Minus | Plus.

Definition datetime (t : Z) (sign : Sign) (hours : Z) : option Z :=
  if hours <? 0 then None
  else match sign with
       | Minus => Some (t - hours * 3600)
       | Plus => Some (t + hours * 3600)
       end.

(** [x BETWEEN lo AND hi]; a [NULL] bound selects no row. *)
Definition between (x : Z) (lo hi : option Z) : bool :=
  match lo, hi with
  | Some l, Some h => (l <=? x) && (x <=? h)
  | _, _ => false
  end.

(** ** [MemoryDatabase]: sessions *)

Definition getSession (db : Db) (sessionKey : string) : option Session :=
  find (fun s => String.eqb (session_key s) sessionKey) (sessions db).

Definition getSessionById (db : Db) (i : Z) : option Session :=
  find (fun s => s_id s =? i) (sessions db).

(** A plain [INSERT]: [session_key] is [UNIQUE NOT NULL], so a second insert
    of the same key throws. *)
Definition createSession (now : Z) (sessionKey : string)
    (projectPath : option string) : M Session :=
  fun db =>
    if existsb (fun s => String.eqb (session_key s) sessionKey) (sessions db)
    then (Throw SQLITE_CONSTRAINT_UNIQUE, db)
    else
      let row := mkSession (seq_sessions db + 1) sessionKey (truthyStr projectPath)
                           now None None None None in
      (Ok row,
       mkDb (sessions db ++ [row]) (observations db)
            (seq_sessions db + 1) (seq_observations db)).

Definition endSession (now : Z) (sessionKey : string) (summary : option string) : M unit :=
  fun db =>
    let upd s :=
      if String.eqb (session_key s) sessionKey
      then mkSession (s_id s) (session_key s) (project_path s) (started_at s)
                     (Some now) (truthyStr summary) (summary_tokens s) (s_metadata s)
      else s in
    (Ok tt,
     mkDb (map upd (sessions db)) (observations db)
          (seq_sessions db) (seq_observations db)).

(** ** [MemoryDatabase]: observations *)

(** The argument object of [createObservation]. *)
Record NewObservation := mkNewObservation {
  n_session_id : Z;
  n_type : string;
  n_tool_name : option string;
  n_input : option string;
  n_output : option string;
  n_summary : option string;
  n_tokens : option Z;
  n_importance : option float;
  n_metadata : option string
}.

Definition createObservation (now : Z) (observation : NewObservation) : M Observation :=
  fun db =>
    if existsb (fun s => s_id s =? n_session_id observation) (sessions db)
    then
      let row := mkObservation
        (seq_observations db + 1)
        (n_session_id observation)
        (n_type observation)
        (truthyStr (n_tool_name observation))
        (truthyStr (n_input observation))
        (truthyStr (n_output observation))
        (truthyStr (n_summary observation))
        (truthyNum (n_tokens observation))
        (nullish (n_importance observation) 0.5%float)
        now
        (n_metadata observation) in
      (Ok row,
       mkDb (sessions db) (observations db ++ [row])
            (seq_sessions db) (seq_observations db + 1))
    else (Throw SQLITE_CONSTRAINT_FOREIGNKEY, db).

Definition getObservation (db : Db) (i : Z) : option Observation :=
  find (fun o => id o =? i) (observations db).

Definition getObservations (db : Db) (ids : list Z) : list Observation :=
  match ids with
  | [] => []
  | _ =>
    orderBy (fun a b => created_at b <=? created_at a)
            (filter (fun o => existsb (Z.eqb (id o)) ids) (observations db))
  end.

Definition getSessionObservations (db : Db) (sessionId : Z) : list Observation :=
  orderBy (fun a b => created_at a <=? created_at b)
          (filter (fun o => session_id o =? sessionId) (observations db)).

Definition getRecentObservations (db : Db) (limit : Z) : list Observation :=
  sqlLimit limit (orderBy (fun a b => created_at b <=? created_at a) (observations db)).

(** ** [MemoryDatabase]: timeline *)

Definition getTimeline (db : Db) (observationId : Z) (rangeHours : option Z)
    : list Observation :=
  let rangeHours := nullish rangeHours 2 in
  match getObservation db observationId with
  | None => []
  | Some observation =>
    let lo := datetime (created_at observation) Minus rangeHours in
    let hi := datetime (created_at observation) Plus rangeHours in
    orderBy (fun a b => created_at a <=? created_at b)
            (filter (fun o => between (created_at o) lo hi) (observations db))
  end.

(** ** [MemoryDatabase]: context for injection *)

Record ContextOptions := mkContextOptions {
  projectPath : option string;
  maxTokens : option Z;
  includeTypes : option (list string)
}.

Record Context := mkContext {
  ctx_observations : list Observation;
  totalTokens : Z
}.

(** [ORDER BY importance DESC, created_at DESC]. *)
Definition byImportanceThenRecency (a b : Observation) : bool :=
  PrimFloat.ltb (importance b) (importance a) ||
  (PrimFloat.eqb (importance a) (importance b) && (created_at b <=? created_at a)).

(** The candidate query of [getContextForInjection]. *)
Definition contextCandidates (db : Db) (options : ContextOptions) : list Observation :=
  let includeTypes :=
    nullish (includeTypes options) ["decision"; "bugfix"; "architecture"] in
  let inProject o :=
    match truthyStr (projectPath options) with
    | None => true
    | Some p =>
      existsb (fun s => (s_id s =? session_id o) &&
                        match project_path s with
                        | Some q => String.eqb q p
                        | None => false
                        end) (sessions db)
    end in
  sqlLimit 100
    (orderBy byImportanceThenRecency
       (filter (fun o => existsb (String.eqb (type o)) includeTypes &&
                         PrimFloat.leb 0.5 (importance o) && inProject o)
               (observations db))).

(** [obs.tokens || 100]. *)
Definition obsTokens (obs : Observation) : Z := orNum (tokens obs) 100.

(** The [for (const row of rows)] loop with its [break]. *)
Fixpoint budgetLoop (maxTokens : Z) (rows observations : list Observation)
    (totalTokens : Z) : Context :=
  match rows with
  | [] => mkContext observations totalTokens
  | row :: rest =>
    if totalTokens + obsTokens row <=? maxTokens
    then budgetLoop maxTokens rest (observations ++ [row]) (totalTokens + obsTokens row)
    else mkContext observations totalTokens
  end.

Definition getContextForInjection (db : Db) (options : ContextOptions) : Context :=
  let maxTokens := orNum (maxTokens options) 4000 in
  let rows := contextCandidates db options in
  budgetLoop maxTokens rows [] 0.

(** ** Request parsing and rendering helpers of the worker *)

Definition isSpace (c : ascii) : bool :=
  let n := nat_of_ascii c in
  (Nat.eqb n 32 || (Nat.leb 9 n && Nat.leb n 13))%bool.

Fixpoint skipSpaces (s : string) : string :=
  match s with
  | String c s' => if isSpace c then skipSpaces s' else s
  | EmptyString => s
  end.

Definition digitOf (c : ascii) : option Z :=
  let n := nat_of_ascii c in
  if (Nat.leb 48 n && Nat.leb n 57)%bool then Some (Z.of_nat n - 48) else None.

Fixpoint digits (s : string) (acc : option Z) : option Z :=
  match s with
  | EmptyString => acc
  | String c s' =>
    match digitOf c with
    | Some d => digits s' (Some (10 * nullish acc 0 + d))
    | None => acc
    end
  end.

(** [parseInt(s, 10)]; [None] is [NaN]. *)
Definition parseInt (s : string) : option Z :=
  match skipSpaces s with
  | String "-"%char s' => option_map Z.opp (digits s' None)
  | String "+"%char s' => digits s' None
  | s' => digits s' None
  end.

(** The calendar date of a timestamp, rendered as the [en-US] locale does
    ([M/D/YYYY]); one instance of the host's [toLocaleDateString]. *)
Definition enUS_date (t : Z) : string :=
  let z := t / 86400 + 719468 in
  let era := z / 146097 in
  let doe := z - era * 146097 in
  let yoe := (doe - doe / 1460 + doe / 36524 - doe / 146096) / 365 in
  let doy := doe - (365 * yoe + yoe / 4 - yoe / 100) in
  let mp := (5 * doy + 2) / 153 in
  let d := doy - (153 * mp + 2) / 5 + 1 in
  let m := if mp <? 10 then mp + 3 else mp - 9 in
  let y := yoe + era * 400 + (if m <=? 2 then 1 else 0) in
  showZ m ++ "/" ++ showZ d ++ "/" ++ showZ y.

(** The text an observation contributes to the relevance index. *)
Definition indexedText (o : Observation) : string :=
  join " " [type o; orStr (tool_name o) ""; orStr (input o) "";
            orStr (output o) ""; orStr (summary o) ""].

(** A stand-in for the FTS5 engine, used to run the examples: the empty
    query and a query holding a double quote are syntax errors; any other
    query matches the rows whose indexed text contains it, all with the
    same rank. *)
Definition substringRank (q : string) (corpus : list Observation) (o : Observation)
    : option float :=
  if includes (toLowerCase (indexedText o)) (toLowerCase q)
  then Some (-1)%float else None.

Definition substringEngine (q : string)
    : option (list Observation -> Observation -> option float) :=
  if String.eqb q "" || includes q (String (ascii_of_nat 34) "") then None
  else Some (substringRank q).

(** ** Search and the HTTP handlers *)

Section Worker.

(** The relevance engine behind [observations_fts MATCH ?]: a query either
    fails to parse ([None]) or scores each row of the corpus with its
    [bm25] rank ([None] for a row that does not match). *)
Variable fts5 : string -> option (list Observation -> Observation -> option float).

(** [new Date(created_at).toLocaleDateString()] in the host's locale. *)
Variable toLocaleDateString : Z -> string.

Record SearchOptions := mkSearchOptions {
  so_type : option string;
  so_since : option Z;
  so_limit : option Z
}.

Definition toSearchResult (hit : Observation * float) : SearchResult :=
  let (o, rank) := hit in
  mkSearchResult (id o) (type o) (tool_name o) (summary o) (created_at o)
                 (importance o) rank.

(** The rows of [observations_fts JOIN observations] that match. *)
Definition ftsMatches (db : Db) (rank : list Observation -> Observation -> option float)
    : list (Observation * float) :=
  flat_map (fun o => match rank (observations db) o with
                     | Some r => [(o, r)]
                     | None => []
                     end) (observations db).

Definition search (db : Db) (query : string) (options : SearchOptions)
    : Result (list SearchResult) :=
  let limit := orNum (so_limit options) 10 in
  match fts5 query with
  | None => Throw SQLITE_ERROR_fts5_syntax
  | Some rank =>
    let rows := ftsMatches db rank in
    let rows := match truthyStr (so_type options) with
                | Some t => filter (fun hit => String.eqb (type (fst hit)) t) rows
                | None => rows
                end in
    let rows := match so_since options with
                | Some since => filter (fun hit => since <=? created_at (fst hit)) rows
                | None => rows
                end in
    Ok (map toSearchResult
          (sqlLimit limit (orderBy (fun a b => PrimFloat.leb (snd a) (snd b)) rows)))
  end.

(** *** [POST /api/search] *)

Record SearchBody := mkSearchBody {
  sb_query : string;
  sb_type : option string;
  sb_since : option Z;
  sb_limit : option Z
}.

Record SearchResponse := mkSearchResponse {
  resp_query : string;
  results : list SearchResult;
  count : nat;
  error : option string
}.

Definition api_search (body : SearchBody) : M SearchResponse :=
  tryCatch
    (results <- queryR (fun db => search db (sb_query body)
                          (mkSearchOptions (sb_type body) (sb_since body) (sb_limit body))) ;;
     ret (mkSearchResponse (sb_query body) results (List.length results) None))
    (fun _ => ret (mkSearchResponse (sb_query body) [] 0
                     (Some "Search query syntax error"))).

(** *** [POST /api/sessions] and [POST /api/observations] *)

Definition api_sessions (now : Z) (session_key : string) (project_path : option string)
    : M Session :=
  createSession now session_key project_path.

Record ObservationBody := mkObservationBody {
  ob_session_key : string;
  ob_type : string;
  ob_tool_name : option string;
  ob_input : option string;
  ob_output : option string;
  ob_summary : option string;
  ob_tokens : option Z;
  ob_importance : option float;
  ob_metadata : option string
}.

(** Get or create session. *)
Definition getOrCreateSession (now : Z) (session_key : string) : M Session :=
  session <- query (fun db => getSession db session_key) ;;
  match session with
  | Some s => ret s
  | None => createSession now session_key None
  end.

Definition api_observations (now : Z) (body : ObservationBody) : M Observation :=
  session <- getOrCreateSession now (ob_session_key body) ;;
  createObservation now
    (mkNewObservation (s_id session) (ob_type body) (ob_tool_name body)
       (ob_input body) (ob_output body) (ob_summary body) (ob_tokens body)
       (ob_importance body) (ob_metadata body)).

Definition api_observations_batch (ids : list Z) : M (list Observation) :=
  query (fun db => getObservations db ids).

(** *** [GET /api/context] *)

Record ContextResponse := mkContextResponse {
  cr_observations : list Observation;
  cr_totalTokens : Z;
  contextText : string
}.

Definition contextLine (obs : Observation) : string :=
  let date := toLocaleDateString (created_at obs) in
  let summary := orStr (summary obs)
                       (type obs ++ ": " ++ orStr (tool_name obs) "unknown") in
  "[#" ++ showZ (id obs) ++ " " ++ date ++ "] " ++ summary.

Definition api_context (project_path max_tokens : option string) : M ContextResponse :=
  result <- query (fun db => getContextForInjection db
              (mkContextOptions project_path
                 (match truthyStr max_tokens with
                  | Some s => parseInt s
                  | None => None
                  end)
                 None)) ;;
  let contextLines := map contextLine (ctx_observations result) in
  ret (mkContextResponse (ctx_observations result) (totalTokens result)
                         (join (String (ascii_of_nat 10) "") contextLines)).

(** *** The lifecycle hooks *)

Definition hooks_session_start (now : Z) (session_key : string)
    (project_path : option string) : M (Session * Context) :=
  session <- createSession now session_key project_path ;;
  context <- query (fun db => getContextForInjection db
               (mkContextOptions project_path (Some 4000) None)) ;;
  ret (session, context).

Record ToolResultBody := mkToolResultBody {
  tr_session_key : string;
  tr_tool_name : string;
  tr_input : string;
  tr_output : string;
  tr_type : option string;
  tr_importance : option float
}.

Definition hooks_tool_result (now : Z) (body : ToolResultBody) : M Observation :=
  session <- getOrCreateSession now (tr_session_key body) ;;
  let obsType := orStr (tr_type body)
                   (classifyObservation (tr_tool_name body) (tr_input body) (tr_output body)) in
  let obsImportance := nullish (tr_importance body)
                   (calculateImportance obsType (tr_tool_name body) (tr_input body)
                                        (tr_output body)) in
  createObservation now
    (mkNewObservation (s_id session) obsType (Some (tr_tool_name body))
       (Some (truncateForStorage (tr_input body) 5000))
       (Some (truncateForStorage (tr_output body) 10000))
       None None (Some obsImportance) None).

Definition hooks_session_end (now : Z) (session_key : string) (summary : option string)
    : M unit :=
  endSession now session_key summary.

(** ** The states the store can reach through its write operations *)

Inductive reachable : Db -> Prop :=
| reach_empty : reachable emptyDb
| reach_createSession db now key path :
    reachable db -> reachable (snd (createSession now key path db))
| reach_endSession db now key s :
    reachable db -> reachable (snd (endSession now key s db))
| reach_createObservation db now obs :
    reachable db -> reachable (snd (createObservation now obs db)).

End Worker.

(** ** Further operations of the store and of the worker *)

(** [getRecentSessions(limit = 10)]. *)
Definition getRecentSessions (db : Db) (limit : option Z) : list Session :=
  sqlLimit (nullish limit 10)
           (orderBy (fun a b => started_at b <=? started_at a) (sessions db)).

(** [SELECT type, COUNT( * ) ... GROUP BY type]: one entry per type tag;
    the engine chooses the order of the groups, the model lists them by
    first occurrence. *)
Fixpoint bump (t : string) (groups : list (string * Z)) : list (string * Z) :=
  match groups with
  | [] => [(t, 1)]
  | (k, n) :: rest =>
    if String.eqb k t then (k, n + 1) :: rest else (k, n) :: bump t rest
  end.

Definition groupByType (rows : list Observation) : list (string * Z) :=
  fold_left (fun groups o => bump (type o) groups) rows [].

Record Stats := mkStats {
  totalSessions : Z;
  totalObservations : Z;
  observationsByType : list (string * Z)
}.

Definition getStats (db : Db) : Stats :=
  mkStats (Z.of_nat (List.length (sessions db)))
          (Z.of_nat (List.length (observations db)))
          (groupByType (observations db)).

(** [stats.observationsByType[t]]. *)
Fixpoint countOf (groups : list (string * Z)) (t : string) : option Z :=
  match groups with
  | [] => None
  | (k, n) :: rest => if String.eqb k t then Some n else countOf rest t
  end.

(** What a handler sends: a body, or a status code with an error text. *)
Inductive Reply (A : Type) :=
| Send (a : A)
| Status (code : Z) (error : string).

Arguments Send {A} a.
Arguments Status {A} code error.

(** [GET /api/sessions/:key]. *)
Definition api_sessions_get (key : string) : M (Reply Session) :=
  session <- query (fun db => getSession db key) ;;
  match session with
  | None => ret (Status 404 "Session not found")
  | Some s => ret (Send s)
  end.

(** [GET /api/observations/:id]; a [NaN] id selects no row. *)
Definition api_observations_get (id : string) : M (Reply Observation) :=
  observation <- query (fun db => match parseInt id with
                                  | Some i => getObservation db i
                                  | None => None
                                  end) ;;
  match observation with
  | None => ret (Status 404 "Observation not found")
  | Some o => ret (Send o)
  end.

(** [POST /api/timeline]. *)
Record TimelineResponse := mkTimelineResponse {
  center_id : Z;
  range_hours : Z;
  tl_observations : list Observation
}.

Definition api_timeline (observation_id range_hours : option Z)
    : M (Reply TimelineResponse) :=
  match truthyNum observation_id with
  | None => ret (Status 400 "observation_id required")
  | Some i =>
    timeline <- query (fun db => getTimeline db i (Some (orNum range_hours 2))) ;;
    ret (Send (mkTimelineResponse i (orNum range_hours 2) timeline))
  end.

(** ** Auto-capture of the plugin ([agent_end] of [extension/index.ts]) *)

(** A content block of a message, as far as the capture reads it. *)
Record Block := mkBlock {
  b_type : string;
  tool_use_id : option string;
  b_content : option string
}.

(** A message; [m_content] is [None] when [content] is not an array. *)
Record Message := mkMessage {
  role : string;
  m_content : option (list Block)
}.

Record ToolResult := mkToolResult {
  toolName : string;
  t_input : string;
  t_output : string
}.

(** The tool results found in the messages. *)
Definition extractToolResults (messages : list Message) : list ToolResult :=
  flat_map (fun msg =>
    if String.eqb (role msg) "user" then
      match m_content msg with
      | Some blocks =>
        flat_map (fun block =>
          if String.eqb (b_type block) "tool_result"
          then [mkToolResult (orStr (tool_use_id block) "unknown") ""
                             (orStr (b_content block) "")]
          else []) blocks
      | None => []
      end
    else []) messages.

(** The bodies the capture posts to [/api/observations], in order. *)
Definition captureRequests (workerAvailable : bool) (currentSessionKey : option string)
    (success : bool) (messages : list Message) : list ObservationBody :=
  match truthyStr currentSessionKey with
  | Some sessionKey =>
    if workerAvailable && success then
      flat_map (fun result =>
        let classification :=
          classifyToolResult (toolName result) (t_input result) (t_output result) in
        if PrimFloat.ltb (c_importance classification) 0.5 then []
        else [mkObservationBody sessionKey (c_type classification)
                (Some (toolName result))
                (Some (truncate (Some (t_input result)) 2000))
                (Some (truncate (Some (t_output result)) (Z.to_nat 5000)))
                None None (Some (c_importance classification)) None])
        (firstn 10 (extractToolResults messages))
    else []
  | None => []
  end.

(** ** Vocabulary of the specification *)

(** Rule 1 of the classifier: the input mentions "fix", or the output
    mentions "fixed", "resolved" or "error" (case-insensitively). *)
Definition fixSignal (input output : string) : bool :=
  includes (toLowerCase input) "fix" || includes (toLowerCase output) "fixed" ||
  includes (toLowerCase output) "resolved" || includes (toLowerCase output) "error".

(** The tool name mentions "write" or "edit". *)
Definition editTool (toolName : string) : bool :=
  includes (toLowerCase toolName) "write" || includes (toLowerCase toolName) "edit".

(** The output carries one of the words that raise the importance. *)
Definition boostSignal (output : string) : bool :=
  includes (toLowerCase output) "error" || includes (toLowerCase output) "failed" ||
  includes (toLowerCase output) "success" || includes (toLowerCase output) "completed".

(** A number of the closed interval [0.0, 1.0]. *)
Definition inUnit (x : float) : Prop :=
  PrimFloat.leb 0 x = true /\ PrimFloat.leb x 1 = true.

(** The token cost as the specification words it: the [tokens] field if
    present, else the fallback estimate. *)
Definition tokenCost (o : Observation) : Z :=
  match tokens o with Some t => t | None => 100 end.

Definition sumCosts (l : list Observation) : Z :=
  fold_right (fun o acc => tokenCost o + acc) 0 l.

(** [created_at] lies within [rangeHours] hours of the center, endpoints
    included. *)
Definition inWindow (center rangeHours : Z) (o : Observation) : Prop :=
  center - rangeHours * 3600 <= created_at o <= center + rangeHours * 3600.

Definition inWindowb (center rangeHours : Z) (o : Observation) : bool :=
  (center - rangeHours * 3600 <=? created_at o) &&
  (created_at o <=? center + rangeHours * 3600).


(** What the schema and [createObservation] guarantee of every stored row:
    a stored [tokens] is never [0] ([tokens || null]), ids are the values
    [AUTOINCREMENT] handed out, each once, and session keys are unique. *)
Definition storeInvariant (db : Db) : Prop :=
  0 <= seq_observations db /\
  Forall (fun o => tokens o <> Some 0) (observations db) /\
  Forall (fun o => 1 <= id o <= seq_observations db) (observations db) /\
  NoDup (map id (observations db)) /\
  NoDup (map session_key (sessions db)).

(** The store [db'] is what some sequence of write operations makes of
    [db]. *)
Inductive evolves (db : Db) : Db -> Prop :=
| ev_refl : evolves db db
| ev_createSession db' now key path :
    evolves db db' -> evolves db (snd (createSession now key path db'))
| ev_endSession db' now key s :
    evolves db db' -> evolves db (snd (endSession now key s db'))
| ev_createObservation db' now obs :
    evolves db db' -> evolves db (snd (createObservation now obs db')).

(** The referential and uniqueness constraints of [schema.sql]. *)
Definition schemaConstraints (db : Db) : Prop :=
  (forall o, In o (observations db) ->
             exists s, In s (sessions db) /\ s_id s = session_id o) /\
  NoDup (map s_id (sessions db)) /\
  NoDup (map session_key (sessions db)) /\
  NoDup (map id (observations db)).

(** ** Example stores *)

(** The store after running a handler. *)
Definition exec {A : Type} (m : M A) (db : Db) : Db := snd (m db).

(** The end-to-end scenario: session "s1" is started, then one tool result
    is ingested. *)
Definition scenarioStart : Db :=
  exec (hooks_session_start 1762153800 "s1" None) emptyDb.

Definition scenarioBody : ToolResultBody :=
  mkToolResultBody "s1" "Write" "fix null pointer" "fixed, tests passed" None None.

Definition scenarioDb : Db :=
  exec (hooks_tool_result 1762153860 scenarioBody) scenarioStart.

(** Three decisions of 40 tokens each, then one of 10 tokens. *)
Definition decision (summary : string) (tokens : Z) (importance : float)
    : ObservationBody :=
  mkObservationBody "s1" "decision" None None None (Some summary) (Some tokens)
                    (Some importance) None.





(** * Theorems *)

(** ** [ORDER BY] *)

Section OrderBy.

Context {A : Type} (le : A -> A -> bool).

Lemma insertBy_perm (x : A) (l : list A) : Permutation (insertBy le x l) (x :: l).
Proof.
  induction l as [|y l IH]; simpl.
  - apply Permutation_refl.
  - destruct (le x y).
    + apply Permutation_refl.
    + eapply perm_trans; [apply perm_skip, IH | apply perm_swap].
Qed.

Lemma orderBy_perm (l : list A) : Permutation (orderBy le l) l.
Proof.
  induction l as [|x l IH]; simpl.
  - constructor.
  - eapply perm_trans; [apply insertBy_perm | apply perm_skip, IH].
Qed.

Lemma orderBy_In (l : list A) (x : A) : In x (orderBy le l) <-> In x l.
Proof.
  split; apply Permutation_in;
    [apply orderBy_perm | apply Permutation_sym, orderBy_perm].
Qed.

Lemma orderBy_length (l : list A) : List.length (orderBy le l) = List.length l.
Proof. apply Permutation_length, orderBy_perm. Qed.

Hypothesis le_total : forall a b, le a b = true \/ le b a = true.
Hypothesis le_trans : forall a b c, le a b = true -> le b c = true -> le a c = true.

Lemma insertBy_sorted (x : A) (l : list A) :
  StronglySorted (fun a b => le a b = true) l ->
  StronglySorted (fun a b => le a b = true) (insertBy le x l).
Proof using le_total le_trans.
  induction 1 as [|y l Hs IH Hy]; simpl.
  - repeat constructor.
  - destruct (le x y) eqn:E.
    + constructor; [constructor; assumption|].
      constructor; [assumption|].
      eapply Forall_impl; [|exact Hy]. intros z Hz. eapply le_trans; eassumption.
    + constructor; [exact IH|].
      assert (Hyx : le y x = true) by (destruct (le_total x y); congruence).
      eapply Permutation_Forall; [apply Permutation_sym, insertBy_perm|].
      constructor; assumption.
  Qed.

Lemma orderBy_sorted (l : list A) :
  StronglySorted (fun a b => le a b = true) (orderBy le l).
Proof using le_total le_trans.
  induction l as [|x l IH]; simpl.
  - constructor.
  - apply insertBy_sorted, IH.
Qed.

End OrderBy.

Lemma StronglySorted_weaken {A : Type} (R S : A -> A -> Prop) (l : list A) :
  (forall a b, R a b -> S a b) -> StronglySorted R l -> StronglySorted S l.
Proof.
  intros HRS. induction 1 as [|x l Hs IH Hx]; constructor.
  - exact IH.
  - eapply Forall_impl; [|exact Hx]. intros b. apply HRS.
Qed.

Lemma orderBy_asc_sorted {A : Type} (key : A -> Z) (l : list A) :
  StronglySorted (fun a b => key a <= key b)
                 (orderBy (fun a b => key a <=? key b) l).
Proof.
  eapply StronglySorted_weaken; [| apply orderBy_sorted ].
  - intros a b H. apply Z.leb_le, H.
  - intros a b. rewrite !Z.leb_le. lia.
  - intros a b c. rewrite !Z.leb_le. lia.
Qed.

Lemma orderBy_desc_sorted {A : Type} (key : A -> Z) (l : list A) :
  StronglySorted (fun a b => key b <= key a)
                 (orderBy (fun a b => key b <=? key a) l).
Proof.
  eapply StronglySorted_weaken; [| apply orderBy_sorted ].
  - intros a b H. apply Z.leb_le, H.
  - intros a b. rewrite !Z.leb_le. lia.
  - intros a b c. rewrite !Z.leb_le. lia.
Qed.

(** ** The classifiers *)

Ltac case_includes :=
  repeat match goal with
         | |- context [includes ?s ?k] => destruct (includes s k) eqn:?
         | |- context [String.eqb ?s ?k] => destruct (String.eqb s k) eqn:?
         end.

(** Two binary64 numbers that [===] tells apart are different. *)
Lemma float_neq (x y : float) : PrimFloat.eqb x y = false -> PrimFloat.eqb y y = true -> x <> y.
Proof. intros Hxy Hyy E. rewrite E in Hxy. congruence. Qed.

Lemma lookup_In (table : list (string * float)) (key : string) (v : float) :
  lookup table key = Some v -> In v (map snd table).
Proof.
  induction table as [|[k w] rest IH]; simpl; [discriminate|].
  destruct (String.eqb k key).
  - intros [= ->]. now left.
  - intros H. right. apply IH, H.
Qed.

Lemma lookup_typeImportance (t : string) :
  In (nullish (lookup typeImportance t) 0.5%float)
     [0.9; 0.85; 0.7; 0.6; 0.5; 0.4; 0.3]%float.
Proof.
  destruct (lookup typeImportance t) as [v|] eqn:E; simpl.
  - apply lookup_In in E. simpl in E. intuition (subst; auto 10).
  - auto 10.
Qed.

(** Whatever type tag it is given, [calculateImportance] returns a number of
    [0.0, 1.0]. *)
Lemma calculateImportance_inUnit (t toolName input output : string) :
  inUnit (calculateImportance t toolName input output).
Proof.
  unfold calculateImportance. cbv zeta.
  pose proof (lookup_typeImportance t) as Hin.
  set (base := nullish (lookup typeImportance t) 0.5%float) in *.
  clearbody base.
  destruct (includes (toLowerCase output) "error" || includes (toLowerCase output) "failed"),
           (includes (toLowerCase output) "success" || includes (toLowerCase output) "completed");
    simpl in Hin; intuition (subst base; split; vm_compute; reflexivity).
Qed.

(** Every importance either classifier computes lies in [0.0, 1.0]. *)
Lemma classifier_importance_inUnit (toolName input output : string) :
  inUnit (c_importance (classifyToolResult toolName input output)) /\
  inUnit (c_importance (classifyIngested toolName input output)).
Proof.
  split.
  - unfold classifyToolResult. case_includes; split; vm_compute; reflexivity.
  - apply calculateImportance_inUnit.
Qed.

(** C1 (as amended).  When the input mentions "fix" or the output mentions
    "fixed", "resolved" or "error", the plugin-side classifier
    [classifyToolResult] returns [bugfix] with importance 0.9 whatever the
    tool name is: its rule 1 fires before its write/edit rule.  The
    ingestion-side classifier [classifyObservation] looks at the tool name
    first: on such inputs it returns [bugfix] exactly when the tool name
    mentions "write" or "edit" and the input mentions "fix" or the output
    mentions "fixed". *)
Theorem classify_fix_signal (toolName input output : string) :
  fixSignal input output = true ->
  classifyToolResult toolName input output = mkClassification "bugfix" 0.9 /\
  (c_type (classifyIngested toolName input output) = "bugfix" <->
   editTool toolName = true /\
   includes (toLowerCase input) "fix" || includes (toLowerCase output) "fixed" = true).
Proof.
  unfold fixSignal, classifyToolResult, classifyIngested, classifyObservation, editTool.
  cbn [c_type]. intros H. split.
  - rewrite H. reflexivity.
  - clear H. case_includes; cbn; split;
      solve [ reflexivity | discriminate | intros [? ?]; discriminate | intros _; split; reflexivity ].
Qed.

(** C9 (as amended).  For a tool whose name mentions "write" or "edit" and
    an input/output that signals a fix, [classifyToolResult] returns
    [bugfix] at importance 0.9, and the ingestion-side classification
    ([classifyObservation] with [calculateImportance]) is that same pair
    exactly when the signal is "fix" in the input or "fixed" in the output
    and the output mentions none of "error", "failed", "success",
    "completed". *)
Theorem classifiers_agree_iff (toolName input output : string) :
  editTool toolName = true ->
  fixSignal input output = true ->
  classifyToolResult toolName input output = mkClassification "bugfix" 0.9 /\
  (classifyIngested toolName input output = classifyToolResult toolName input output <->
   includes (toLowerCase input) "fix" || includes (toLowerCase output) "fixed" = true /\
   boostSignal output = false).
Proof.
  unfold fixSignal, editTool, boostSignal. intros Ht Hf.
  assert (Hp : classifyToolResult toolName input output = mkClassification "bugfix" 0.9)
    by (unfold classifyToolResult; rewrite Hf; reflexivity).
  split; [exact Hp|]. rewrite Hp. clear Hp Hf.
  unfold classifyIngested, classifyObservation, calculateImportance.
  rewrite Ht. clear Ht.
  destruct (includes (toLowerCase input) "fix"), (includes (toLowerCase output) "fixed"),
           (includes (toLowerCase output) "error"), (includes (toLowerCase output) "failed"),
           (includes (toLowerCase output) "success"), (includes (toLowerCase output) "completed");
    vm_compute; split;
    solve [ intros _; split; reflexivity
          | reflexivity
          | intros [? ?]; discriminate
          | intros E; exfalso; apply (f_equal c_type) in E; discriminate E
          | intros E; exfalso; apply (f_equal c_importance) in E; revert E;
            apply float_neq; vm_compute; reflexivity ].
Qed.

(** ** The store invariant *)

Lemma NoDup_snoc {A : Type} (l : list A) (x : A) :
  NoDup l -> ~ In x l -> NoDup (l ++ [x]).
Proof.
  intros Hl Hx. eapply Permutation_NoDup; [apply Permutation_cons_append|].
  constructor; assumption.
Qed.

Lemma existsb_session_key (key : string) (l : list Session) :
  existsb (fun s => String.eqb (session_key s) key) l = false ->
  ~ In key (map session_key l).
Proof.
  induction l as [|s l IH]; simpl; [tauto|].
  intros H. apply orb_false_iff in H. destruct H as [Hs Hl].
  intros [E | Hin]; [|exact (IH Hl Hin)].
  rewrite E, String.eqb_refl in Hs. discriminate.
Qed.

Lemma truthyNum_nonzero (o : option Z) : truthyNum o <> Some 0.
Proof. destruct o as [[| |]|]; simpl; discriminate. Qed.

Lemma createObservation_invariant (now : Z) (obs : NewObservation) (db : Db) :
  storeInvariant db -> storeInvariant (snd (createObservation now obs db)).
Proof.
  intros (Hs & Ht & Hi & Hn & Hk). unfold createObservation.
  destruct (existsb _ (sessions db)); simpl; [|repeat split; assumption].
  repeat split; simpl.
  - lia.
  - apply Forall_app. split; [exact Ht|]. repeat constructor. simpl.
    apply truthyNum_nonzero.
  - apply Forall_app. split.
    + eapply Forall_impl; [|exact Hi]. simpl. intros o Ho. lia.
    + repeat constructor; simpl; lia.
  - rewrite map_app. apply NoDup_snoc; [exact Hn|]. simpl.
    intros Hin. apply in_map_iff in Hin. destruct Hin as (o & Ho & Hin).
    rewrite Forall_forall in Hi. specialize (Hi o Hin). lia.
  - exact Hk.
Qed.

Lemma createSession_invariant (now : Z) (key : string) (path : option string) (db : Db) :
  storeInvariant db -> storeInvariant (snd (createSession now key path db)).
Proof.
  intros (Hs & Ht & Hi & Hn & Hk). unfold createSession.
  destruct (existsb _ (sessions db)) eqn:E; simpl; [repeat split; assumption|].
  repeat split; try assumption. simpl.
  rewrite map_app. apply NoDup_snoc; [exact Hk|]. simpl.
  apply existsb_session_key, E.
Qed.

Lemma endSession_invariant (now : Z) (key : string) (s : option string) (db : Db) :
  storeInvariant db -> storeInvariant (snd (endSession now key s db)).
Proof.
  intros (Hs & Ht & Hi & Hn & Hk). unfold endSession; simpl.
  repeat split; try assumption. simpl.
  rewrite map_map.
  erewrite map_ext; [exact Hk|].
  intros x. simpl. destruct (String.eqb (session_key x) key); reflexivity.
Qed.

Lemma reachable_invariant (db : Db) : reachable db -> storeInvariant db.
Proof.
  induction 1.
  - repeat split; try constructor. simpl. lia.
  - apply createSession_invariant; assumption.
  - apply endSession_invariant; assumption.
  - apply createObservation_invariant; assumption.
Qed.

(** Running a handler built from the store's operations keeps the store
    reachable. *)
Lemma getOrCreateSession_reachable (now : Z) (key : string) (db : Db) :
  reachable db -> reachable (snd (getOrCreateSession now key db)).
Proof.
  intros H. unfold getOrCreateSession, bind, query, ret.
  destruct (getSession db key); simpl; [exact H|].
  apply reach_createSession, H.
Qed.


Lemma hooks_tool_result_reachable (now : Z) (body : ToolResultBody) (db : Db) :
  reachable db -> reachable (exec (hooks_tool_result now body) db).
Proof.
  intros H. unfold exec, hooks_tool_result, bind.
  pose proof (getOrCreateSession_reachable now (tr_session_key body) db H) as H1.
  destruct (getOrCreateSession now (tr_session_key body) db) as [[s|e] db1]; simpl in *.
  - apply reach_createObservation, H1.
  - exact H1.
Qed.

Lemma hooks_session_start_reachable (now : Z) (key : string) (path : option string) (db : Db) :
  reachable db -> reachable (exec (hooks_session_start now key path) db).
Proof.
  intros H. unfold exec, hooks_session_start, bind, query, ret.
  pose proof (reach_createSession db now key path H) as H1.
  destruct (createSession now key path db) as [[s|e] db1]; simpl in *; exact H1.
Qed.

(** ** Context budgeting *)


Lemma sumCosts_app (l1 l2 : list Observation) :
  sumCosts (l1 ++ l2) = sumCosts l1 + sumCosts l2.
Proof. induction l1 as [|o l1 IH]; simpl; [reflexivity|]. rewrite IH. lia. Qed.


(** [LIMIT] only drops rows. *)
Lemma sqlLimit_In {A : Type} (n : Z) (l : list A) (x : A) :
  In x (sqlLimit n l) -> In x l.
Proof.
  unfold sqlLimit. destruct (n <? 0); [trivial|].
  intros H. rewrite <- (firstn_skipn (Z.to_nat n) l). apply in_or_app. now left.
Qed.


Lemma contextCandidates_cap (db : Db) (options : ContextOptions) :
  (List.length (contextCandidates db options) <= 100)%nat.
Proof.
  unfold contextCandidates, sqlLimit.
  change (100 <? 0) with false. cbv iota.
  change (Z.to_nat 100) with 100%nat. apply firstn_le_length.
Qed.


(** ** Timeline *)

Lemma between_inWindowb (center rangeHours : Z) (o : Observation) :
  between (created_at o) (datetime center Minus rangeHours)
          (datetime center Plus rangeHours)
  = inWindowb center rangeHours o.
Proof.
  unfold between, datetime, inWindowb.
  destruct (rangeHours <? 0) eqn:E; [|reflexivity].
  apply Z.ltb_lt in E. symmetry. apply andb_false_iff.
  destruct (center - rangeHours * 3600 <=? created_at o) eqn:E1; [right|now left].
  apply Z.leb_le in E1. apply Z.leb_gt. lia.
Qed.

Lemma inWindowb_spec (center rangeHours : Z) (o : Observation) :
  inWindowb center rangeHours o = true <-> inWindow center rangeHours o.
Proof.
  unfold inWindowb, inWindow. rewrite andb_true_iff, !Z.leb_le. tauto.
Qed.

Lemma getTimeline_found (db : Db) (centerId rangeHours : Z) (center : Observation) :
  getObservation db centerId = Some center ->
  getTimeline db centerId (Some rangeHours)
  = orderBy (fun a b => created_at a <=? created_at b)
            (filter (inWindowb (created_at center) rangeHours) (observations db)).
Proof.
  intros H. unfold getTimeline. rewrite H. simpl. f_equal.
  apply filter_ext. intros o. apply between_inWindowb.
Qed.


(** ** Batch fetch *)

Lemma existsb_eqb_In (i : Z) (ids : list Z) :
  existsb (Z.eqb i) ids = true <-> In i ids.
Proof.
  rewrite existsb_exists. split.
  - intros (x & Hx & E). apply Z.eqb_eq in E. now subst.
  - intros H. exists i. split; [exact H|apply Z.eqb_refl].
Qed.

Lemma getObservations_unfold (db : Db) (ids : list Z) :
  getObservations db ids
  = orderBy (fun a b => created_at b <=? created_at a)
            (filter (fun o => existsb (Z.eqb (id o)) ids) (observations db)).
Proof.
  destruct ids as [|i ids]; [|reflexivity]. simpl.
  induction (observations db) as [|o l IH]; simpl; [reflexivity|exact IH].
Qed.

Lemma filter_by_id (l : list Observation) (i : Z) (o : Observation) :
  NoDup (map id l) -> find (fun x => id x =? i) l = Some o ->
  filter (fun x => id x =? i) l = [o].
Proof.
  induction l as [|x l IH]; simpl; [discriminate|].
  intros Hnd Hfind. inversion Hnd as [|? ? Hx Hl]; subst.
  destruct (id x =? i) eqn:E.
  - injection Hfind as ->. f_equal.
    apply Z.eqb_eq in E.
    clear IH Hnd Hl. induction l as [|y l IH]; simpl; [reflexivity|].
    destruct (id y =? i) eqn:Ey.
    + apply Z.eqb_eq in Ey. exfalso. apply Hx. simpl. left. congruence.
    + apply IH. intros Hin. apply Hx. simpl. now right.
  - apply IH; assumption.
Qed.

(** Selecting rows keeps their ids distinct. *)
Lemma filter_distinct_ids (keep : Observation -> bool) (rows : list Observation) :
  NoDup (map id rows) -> NoDup (map id (filter keep rows)).
Proof.
  induction rows as [|row rows IH]; simpl; intros Hnd; [constructor|].
  apply NoDup_cons_iff in Hnd. destruct Hnd as [Hfresh Hrest].
  destruct (keep row); simpl; [|exact (IH Hrest)].
  apply NoDup_cons_iff. split; [|exact (IH Hrest)].
  contradict Hfresh. apply in_map_iff in Hfresh. destruct Hfresh as (y & Hy & Hin).
  apply filter_In in Hin. rewrite <- Hy. apply in_map. tauto.
Qed.

(** C8.  [getObservations] returns exactly the stored observations whose id
    is in the list (an id with no row contributes nothing and raises
    nothing), in descending [created_at] order, whatever the order of the
    ids; asked for [1; 999] where only 1 exists it returns the single row
    with id 1; asked for no id it returns the empty list. *)
Theorem getObservations_batch (db : Db) (ids : list Z) :
  reachable db ->
  Permutation (getObservations db ids)
    (filter (fun o => existsb (Z.eqb (id o)) ids) (observations db)) /\
  (forall o, In o (getObservations db ids) <->
             In o (observations db) /\ In (id o) ids) /\
  NoDup (map id (getObservations db ids)) /\
  StronglySorted (fun a b => created_at b <= created_at a) (getObservations db ids) /\
  (forall ids', Permutation ids ids' ->
                getObservations db ids' = getObservations db ids) /\
  (forall i, getObservation db i = None ->
             getObservations db (i :: ids) = getObservations db ids) /\
  (forall o, getObservation db 1 = Some o -> getObservation db 999 = None ->
             getObservations db [1; 999] = [o] /\ id o = 1) /\
  getObservations db [] = [].
Proof.
  intros Hreach.
  destruct (reachable_invariant db Hreach) as (_ & _ & _ & Hnd & _).
  assert (Hperm : forall l, Permutation (getObservations db l)
            (filter (fun o => existsb (Z.eqb (id o)) l) (observations db)))
    by (intros l; rewrite getObservations_unfold; apply orderBy_perm).
  assert (Hmiss : forall i l, getObservation db i = None ->
            getObservations db (i :: l) = getObservations db l).
  { intros i l Hnone. rewrite !getObservations_unfold. f_equal.
    apply filter_ext_in. intros o Ho. simpl.
    destruct (id o =? i) eqn:E; [|reflexivity]. exfalso.
    unfold getObservation in Hnone.
    pose proof (find_none _ _ Hnone o Ho) as Hf. simpl in Hf. congruence. }
  split; [apply Hperm|]. split; [|split; [|split; [|split; [|split; [|split]]]]].
  - intros o. rewrite getObservations_unfold, orderBy_In, filter_In, existsb_eqb_In.
    tauto.
  - eapply Permutation_NoDup; [apply Permutation_map, Permutation_sym, Hperm|].
    apply filter_distinct_ids, Hnd.
  - rewrite getObservations_unfold. apply orderBy_desc_sorted.
  - intros ids' Hp. rewrite !getObservations_unfold. f_equal.
    apply filter_ext. intros o.
    apply eq_true_iff_eq. rewrite !existsb_eqb_In.
    split; apply Permutation_in; [apply Permutation_sym|]; exact Hp.
  - intros i. apply Hmiss.
  - intros o Ho Hnone. split.
    + rewrite getObservations_unfold.
      erewrite filter_ext_in with (g := fun x => id x =? 1).
      * unfold getObservation in Ho. rewrite (filter_by_id _ 1 o Hnd Ho). reflexivity.
      * intros x Hx. simpl. rewrite orb_false_r.
        destruct (id x =? 999) eqn:E; [|apply orb_false_r].
        exfalso. unfold getObservation in Hnone.
        pose proof (find_none _ _ Hnone x Hx) as Hf. simpl in Hf. congruence.
    + unfold getObservation in Ho. apply find_some in Ho.
      apply Z.eqb_eq. tauto.
  - reflexivity.
Qed.

(** ** Search *)

Lemma flat_map_hits_none (score : Observation -> option float) (rows : list Observation) :
  (forall o, In o rows -> score o = None) ->
  flat_map (fun o => match score o with
                     | Some r => [(o, r)]
                     | None => []
                     end) rows = [].
Proof.
  induction rows as [|o rows IH]; simpl; intros H; [reflexivity|].
  rewrite (H o (or_introl eq_refl)). simpl. apply IH.
  intros x Hx. apply H. now right.
Qed.

Lemma flat_map_hits_some (score : Observation -> option float) (rows : list Observation)
    (o : Observation) :
  In o rows -> score o <> None ->
  flat_map (fun o => match score o with
                     | Some r => [(o, r)]
                     | None => []
                     end) rows <> [].
Proof.
  induction rows as [|x rows IH]; simpl; [tauto|].
  intros [-> | Hin] Hrank.
  - destruct (score o); [discriminate|congruence].
  - destruct (score x); [discriminate|]. simpl. now apply IH.
Qed.

Lemma ftsMatches_none (db : Db) (rank : list Observation -> Observation -> option float) :
  (forall o, In o (observations db) -> rank (observations db) o = None) ->
  ftsMatches db rank = [].
Proof. apply flat_map_hits_none. Qed.

Lemma ftsMatches_some (db : Db) (rank : list Observation -> Observation -> option float)
    (o : Observation) :
  In o (observations db) -> rank (observations db) o <> None ->
  ftsMatches db rank <> [].
Proof. apply flat_map_hits_some. Qed.

Lemma sqlLimit_nil {A : Type} (n : Z) : sqlLimit n (@nil A) = [].
Proof. unfold sqlLimit. destruct (n <? 0); [reflexivity|apply firstn_nil]. Qed.

Section SearchBoundary.

Variable fts5 : string -> option (list Observation -> Observation -> option float).

(** C7.  [POST /api/search] never throws: it always answers, with [count]
    the length of [results]; a query the engine cannot parse is answered
    with no result, count 0 and the error text; a query that parses and
    matches no row (in particular over an empty store) is answered with no
    result and count 0. *)
Theorem api_search_never_throws (body : SearchBody) (db : Db) :
  (exists r, api_search fts5 body db = (Ok r, db) /\
             resp_query r = sb_query body /\ count r = List.length (results r)) /\
  (fts5 (sb_query body) = None ->
   api_search fts5 body db
   = (Ok (mkSearchResponse (sb_query body) [] 0 (Some "Search query syntax error")), db)) /\
  (forall rank, fts5 (sb_query body) = Some rank ->
     (forall o, In o (observations db) -> rank (observations db) o = None) ->
     api_search fts5 body db = (Ok (mkSearchResponse (sb_query body) [] 0 None), db)).
Proof.
  unfold api_search, tryCatch, bind, queryR, ret, search. simpl.
  destruct (fts5 (sb_query body)) as [rank|]; simpl.
  - split; [eexists; repeat split|]. split; [discriminate|].
    intros rank' [= <-] Hnone. rewrite (ftsMatches_none db rank Hnone).
    destruct (truthyStr (sb_type body)), (sb_since body); simpl;
      rewrite sqlLimit_nil; reflexivity.
  - split; [eexists; repeat split|]. split; [reflexivity|discriminate].
Qed.

(** C10.  A [limit] of 0 is falsy, so [search] replaces it by the default
    10: the call behaves as if no limit had been given, and when at least
    one row matches it returns a non-empty list of at most 10 rows. *)
Theorem search_limit_zero (db : Db) (query : string)
    (rank : list Observation -> Observation -> option float) :
  fts5 query = Some rank ->
  (exists o, In o (observations db) /\ rank (observations db) o <> None) ->
  (forall t since, search fts5 db query (mkSearchOptions t since (Some 0))
                   = search fts5 db query (mkSearchOptions t since None)) /\
  exists rows,
    search fts5 db query (mkSearchOptions None None (Some 0)) = Ok rows /\
    rows <> [] /\
    List.length rows = Nat.min 10 (List.length (ftsMatches db rank)).
Proof.
  intros Hq (o & Hin & Hrank). split; [reflexivity|].
  set (rows := map toSearchResult
                 (sqlLimit 10 (orderBy (fun a b => PrimFloat.leb (snd a) (snd b))
                                       (ftsMatches db rank)))).
  assert (Hlen : List.length rows = Nat.min 10 (List.length (ftsMatches db rank))).
  { subst rows. unfold sqlLimit. change (10 <? 0) with false. cbv iota.
    change (Z.to_nat 10) with 10%nat.
    rewrite length_map, length_firstn, orderBy_length. reflexivity. }
  exists rows. split; [|split; [|exact Hlen]].
  - unfold search. rewrite Hq. reflexivity.
  - pose proof (ftsMatches_some db rank o Hin Hrank) as Hne.
    intros E. rewrite E in Hlen. simpl in Hlen.
    destruct (ftsMatches db rank); [congruence|]. simpl in Hlen. lia.
Qed.

End SearchBoundary.

(** ** Importance written by the store *)

(** [createObservation] writes the importance it is given, as it is. *)
Lemma createObservation_importance (now : Z) (obs : NewObservation) (db db' : Db)
    (row : Observation) :
  createObservation now obs db = (Ok row, db') ->
  importance row = nullish (n_importance obs) 0.5%float /\
  In row (observations db').
Proof.
  unfold createObservation. destruct (existsb _ (sessions db)); [|discriminate].
  intros [= <- <-]. simpl. split; [reflexivity|].
  apply in_or_app. right. now left.
Qed.

(** C3, at the failing input.  An importance of 5 sent to
    [POST /api/observations], or to the tool-result hook, is stored as 5,
    outside [0.0, 1.0]. *)
Theorem stored_importance_unclamped :
  (exists o db',
     api_observations 1762153870 (decision "note" 12 5%float) scenarioStart = (Ok o, db') /\
     In o (observations db') /\
     importance o = 5%float /\ PrimFloat.leb (importance o) 1 = false) /\
  (exists o db',
     hooks_tool_result 1762153870
       (mkToolResultBody "s1" "Read" "notes.md" "ok" None (Some 5%float)) scenarioStart
     = (Ok o, db') /\
     In o (observations db') /\
     importance o = 5%float /\ PrimFloat.leb (importance o) 1 = false).
Proof.
  split; eexists; eexists; (split; [vm_compute; reflexivity|]);
    (split; [simpl; left; reflexivity|]); split; reflexivity.
Qed.

(** ** Sessions *)

Lemma createSession_existing (now : Z) (key : string) (path : option string) (db : Db) :
  existsb (fun s => String.eqb (session_key s) key) (sessions db) = true ->
  createSession now key path db = (Throw SQLITE_CONSTRAINT_UNIQUE, db).
Proof. intros H. unfold createSession. rewrite H. reflexivity. Qed.

Lemma createSession_then_exists (now : Z) (key : string) (path : option string) (db : Db) :
  existsb (fun s => String.eqb (session_key s) key)
          (sessions (snd (createSession now key path db))) = true.
Proof.
  unfold createSession.
  destruct (existsb _ (sessions db)) eqn:E; simpl; [exact E|].
  rewrite existsb_app. simpl. rewrite String.eqb_refl. apply orb_true_iff. right. reflexivity.
Qed.

Lemma existsb_find_session (key : string) (l : list Session) :
  existsb (fun s => String.eqb (session_key s) key) l = true ->
  exists s, find (fun s => String.eqb (session_key s) key) l = Some s.
Proof.
  induction l as [|x l IH]; simpl; [discriminate|].
  destruct (String.eqb (session_key x) key); [eexists; reflexivity|exact IH].
Qed.

(** The get-or-create sequence of [POST /api/observations] and of the
    tool-result hook is idempotent: run on a key it has already seen, it
    returns the stored session and leaves the store as it was. *)
Lemma getOrCreateSession_idempotent (now now' : Z) (key : string) (db : Db) :
  let db1 := exec (getOrCreateSession now key) db in
  exists s, getOrCreateSession now' key db1 = (Ok s, db1) /\
            getSession db1 key = Some s.
Proof.
  intros db1.
  assert (H : existsb (fun s => String.eqb (session_key s) key) (sessions db1) = true).
  { subst db1. unfold exec, getOrCreateSession, bind, query, ret, getSession.
    destruct (find _ (sessions db)) as [s|] eqn:E; simpl.
    - apply existsb_exists. exists s. apply find_some in E. exact E.
    - apply createSession_then_exists. }
  destruct (existsb_find_session key _ H) as (s & Hs).
  exists s. unfold getOrCreateSession, bind, query, ret, getSession.
  rewrite Hs. split; reflexivity.
Qed.

(** C5, at the failing input.  The session-start hook calls [createSession]
    without looking the key up first: run a second time on the same key, it
    throws the [UNIQUE] constraint violation instead of reusing the stored
    session. *)
Theorem hooks_session_start_twice (now now' : Z) (key : string)
    (path path' : option string) (db : Db) :
  hooks_session_start now' key path' (exec (hooks_session_start now key path) db)
  = (Throw SQLITE_CONSTRAINT_UNIQUE, exec (hooks_session_start now key path) db).
Proof.
  assert (H : exec (hooks_session_start now key path) db
              = snd (createSession now key path db)).
  { unfold exec, hooks_session_start, bind, query, ret.
    destruct (createSession now key path db) as [[s|e] db1]; reflexivity. }
  rewrite H. unfold hooks_session_start at 1. unfold bind.
  rewrite createSession_existing; [reflexivity|apply createSession_then_exists].
Qed.

(** ** Context text *)

Section ContextText.

Variable toLocaleDateString : Z -> string.

(** C6 (as amended).  [contextText] is one line [[#id date] summary] per
    selected observation, joined by newlines, where the summary is the
    stored one if present and [type: tool_name] otherwise.  In the
    end-to-end scenario the ingested observation is classified [bugfix]
    with importance exactly 0.9 and, no summary being stored by the
    tool-result hook, its line is [[#id date] bugfix: Write]. *)
Theorem api_context_text (now0 now1 : Z) :
  (forall project_path max_tokens db, exists r,
     api_context toLocaleDateString project_path max_tokens db = (Ok r, db) /\
     contextText r = join (String (ascii_of_nat 10) "")
                          (map (contextLine toLocaleDateString) (cr_observations r))) /\
  (forall obs,
     contextLine toLocaleDateString obs
     = "[#" ++ showZ (id obs) ++ " " ++ toLocaleDateString (created_at obs) ++ "] "
       ++ match truthyStr (summary obs) with
          | Some s => s
          | None => type obs ++ ": " ++ orStr (tool_name obs) "unknown"
          end) /\
  exists o db1,
    hooks_tool_result now1 scenarioBody (exec (hooks_session_start now0 "s1" None) emptyDb)
    = (Ok o, db1) /\
    type o = "bugfix" /\ importance o = 0.9%float /\ summary o = None /\
    api_context toLocaleDateString None None db1
    = (Ok (mkContextResponse [o] 100
             ("[#" ++ showZ (id o) ++ " " ++ toLocaleDateString (created_at o)
              ++ "] bugfix: Write")), db1).
Proof.
  split; [|split].
  - intros p m db. eexists. split; reflexivity.
  - intros obs. reflexivity.
  - eexists. eexists. split; [vm_compute; reflexivity|].
    repeat split; vm_compute; reflexivity.
Qed.

End ContextText.

(** * Concrete runs *)

(** C1, at the inputs of the specification's precedence example. *)
Lemma classify_fix_signal_witness :
  fixSignal "please fix the bug" "fixed" = true /\
  classifyToolResult "Read" "please fix the bug" "fixed" = mkClassification "bugfix" 0.9 /\
  (c_type (classifyIngested "Read" "please fix the bug" "fixed") = "bugfix" <->
   editTool "Read" = true /\
   includes (toLowerCase "please fix the bug") "fix" ||
   includes (toLowerCase "fixed") "fixed" = true).
Proof.
  split; [reflexivity|].
  apply (classify_fix_signal "Read" "please fix the bug" "fixed"). reflexivity.
Defined.

(** C1 fails on the ingestion-side classifier: with the tool [bash] the
    same input and output are classified [command], importance 0.4. *)
Lemma classify_fix_signal_counterexample :
  fixSignal "please fix the bug" "fixed" = true /\
  classifyIngested "bash" "please fix the bug" "fixed" = mkClassification "command" 0.4 /\
  classifyIngested "bash" "please fix the bug" "fixed" <> mkClassification "bugfix" 0.9.
Proof.
  split; [reflexivity|]. split; [reflexivity|].
  intros E. apply (f_equal c_type) in E. vm_compute in E. discriminate E.
Qed.

(** C9, at a write tool whose input asks for a fix and whose output carries
    no boosting word. *)
Lemma classifiers_agree_iff_witness :
  editTool "Write" = true /\
  fixSignal "fix null pointer" "fixed, tests passed" = true /\
  classifyToolResult "Write" "fix null pointer" "fixed, tests passed"
    = mkClassification "bugfix" 0.9 /\
  (classifyIngested "Write" "fix null pointer" "fixed, tests passed"
     = classifyToolResult "Write" "fix null pointer" "fixed, tests passed" <->
   includes (toLowerCase "fix null pointer") "fix" ||
   includes (toLowerCase "fixed, tests passed") "fixed" = true /\
   boostSignal "fixed, tests passed" = false).
Proof.
  split; [reflexivity|]. split; [reflexivity|].
  apply (classifiers_agree_iff "Write" "fix null pointer" "fixed, tests passed");
    reflexivity.
Defined.

(** C9 fails: for an edit tool whose output mentions "error" the plugin
    side says [bugfix] at 0.9 and the ingestion side [code_change] at
    0.7 + 0.1; and where both say [bugfix], a "failed" in the output lifts
    the ingestion-side importance to 1.0. *)
Lemma classifiers_agree_counterexample :
  editTool "Edit" = true /\
  fixSignal "update handler" "Error: file not found" = true /\
  classifyToolResult "Edit" "update handler" "Error: file not found"
    = mkClassification "bugfix" 0.9 /\
  classifyIngested "Edit" "update handler" "Error: file not found"
    = mkClassification "code_change" (0.7 + 0.1) /\
  fixSignal "fix null pointer" "tests failed" = true /\
  classifyToolResult "Edit" "fix null pointer" "tests failed"
    = mkClassification "bugfix" 0.9 /\
  classifyIngested "Edit" "fix null pointer" "tests failed"
    = mkClassification "bugfix" 1.0 /\
  classifyIngested "Edit" "update handler" "Error: file not found"
    <> classifyToolResult "Edit" "update handler" "Error: file not found" /\
  classifyIngested "Edit" "fix null pointer" "tests failed"
    <> classifyToolResult "Edit" "fix null pointer" "tests failed".
Proof.
  repeat (split; [reflexivity|]). split.
  - intros E. apply (f_equal c_type) in E. vm_compute in E. discriminate E.
  - intros E. apply (f_equal c_importance) in E. revert E.
    apply float_neq; vm_compute; reflexivity.
Qed.



(** C8, on the scenario store, whose only observation has id 1. *)
Lemma getObservations_batch_witness :
  reachable scenarioDb /\
  map id (observations scenarioDb) = [1] /\
  map id (getObservations scenarioDb [1; 999]) = [1] /\
  getObservations scenarioDb [999; 1] = getObservations scenarioDb [1; 999] /\
  getObservations scenarioDb [999] = [].
Proof.
  assert (H : reachable scenarioDb).
  { apply hooks_tool_result_reachable, hooks_session_start_reachable, reach_empty. }
  split; [exact H|]. split; [reflexivity|]. split; [reflexivity|].
  destruct (getObservations_batch scenarioDb [1; 999] H)
    as (_ & _ & _ & _ & Hperm & _).
  split; [|reflexivity].
  apply Hperm. apply perm_swap.
Defined.

(** C7, with the stand-in engine: the empty query is a syntax error, and
    "zebra" matches nothing in the scenario store. *)
Lemma api_search_never_throws_witness :
  api_search substringEngine (mkSearchBody "" None None None) scenarioDb
    = (Ok (mkSearchResponse "" [] 0 (Some "Search query syntax error")), scenarioDb) /\
  api_search substringEngine (mkSearchBody "zebra" None None None) scenarioDb
    = (Ok (mkSearchResponse "zebra" [] 0 None), scenarioDb) /\
  api_search substringEngine (mkSearchBody "zebra" None None None) emptyDb
    = (Ok (mkSearchResponse "zebra" [] 0 None), emptyDb).
Proof.
  split; [|split].
  - apply (proj1 (proj2 (api_search_never_throws substringEngine
                           (mkSearchBody "" None None None) scenarioDb))).
    reflexivity.
  - apply (proj2 (proj2 (api_search_never_throws substringEngine
                           (mkSearchBody "zebra" None None None) scenarioDb))
             (substringRank "zebra") eq_refl).
    intros o [<- | []]. reflexivity.
  - apply (proj2 (proj2 (api_search_never_throws substringEngine
                           (mkSearchBody "zebra" None None None) emptyDb))
             (substringRank "zebra") eq_refl).
    intros o [].
Defined.

(** C10, with the stand-in engine: "fix" matches the scenario's
    observation, and a limit of 0 returns it. *)
Lemma search_limit_zero_witness :
  substringEngine "fix" = Some (substringRank "fix") /\
  (exists o, In o (observations scenarioDb) /\
             substringRank "fix" (observations scenarioDb) o <> None) /\
  (forall t since, search substringEngine scenarioDb "fix" (mkSearchOptions t since (Some 0))
                   = search substringEngine scenarioDb "fix" (mkSearchOptions t since None)) /\
  exists rows,
    search substringEngine scenarioDb "fix" (mkSearchOptions None None (Some 0)) = Ok rows /\
    rows <> [] /\
    List.length rows = Nat.min 10 (List.length (ftsMatches scenarioDb (substringRank "fix"))).
Proof.
  assert (H : exists o, In o (observations scenarioDb) /\
                        substringRank "fix" (observations scenarioDb) o <> None).
  { eexists. split; [left; reflexivity|]. discriminate. }
  split; [reflexivity|]. split; [exact H|].
  exact (search_limit_zero substringEngine scenarioDb "fix" (substringRank "fix") eq_refl H).
Defined.

(** C6 fails as stated: in the scenario the importance is 0.9, not 1.0,
    and the line carries [bugfix: Write], not the tool output. *)
Lemma api_context_text_counterexample :
  exists o r,
    hooks_tool_result 1762153860 scenarioBody scenarioStart = (Ok o, scenarioDb) /\
    type o = "bugfix" /\
    importance o = 0.9%float /\ importance o <> 1%float /\
    api_context enUS_date None None scenarioDb = (Ok r, scenarioDb) /\
    cr_observations r = [o] /\
    contextText r = "[#1 11/3/2025] bugfix: Write" /\
    contextText r <> "[#1 11/3/2025] fixed, tests passed".
Proof.
  eexists. eexists. split; [vm_compute; reflexivity|].
  split; [reflexivity|]. split; [reflexivity|].
  split; [apply float_neq; vm_compute; reflexivity|].
  split; [vm_compute; reflexivity|].
  split; [reflexivity|]. split; [reflexivity|].
  simpl. discriminate.
Qed.

(** * Further properties of the code *)

(** ** Classification *)

Lemma lowerChar_idempotent (c : ascii) : lowerChar (lowerChar c) = lowerChar c.
Proof.
  destruct c as [b0 b1 b2 b3 b4 b5 b6 b7].
  destruct b0, b1, b2, b3, b4, b5, b6, b7; reflexivity.
Qed.

Lemma toLowerCase_idempotent (s : string) : toLowerCase (toLowerCase s) = toLowerCase s.
Proof.
  induction s as [|c s IH]; simpl; [reflexivity|].
  now rewrite lowerChar_idempotent, IH.
Qed.

(** X2.  Both classifiers look only at the lower-cased texts: changing the
    case of the tool name, the input or the output changes neither the type
    nor the importance. *)
Theorem classifiers_ignore_case (toolName input output : string) :
  classifyToolResult (toLowerCase toolName) (toLowerCase input) (toLowerCase output)
    = classifyToolResult toolName input output /\
  classifyIngested (toLowerCase toolName) (toLowerCase input) (toLowerCase output)
    = classifyIngested toolName input output.
Proof.
  unfold classifyIngested, classifyToolResult, classifyObservation, calculateImportance.
  rewrite !toLowerCase_idempotent. split; reflexivity.
Qed.

(** X3.  The types the two classifiers produce are all keys of the worker's
    [typeImportance] table, and the importance the plugin assigns is the
    table's base importance of that type: the 0.5 fallback of
    [calculateImportance] is never taken on a classified type. *)
Theorem classifier_types_in_table (toolName input output : string) :
  lookup typeImportance (c_type (classifyToolResult toolName input output))
    = Some (c_importance (classifyToolResult toolName input output)) /\
  lookup typeImportance (classifyObservation toolName input output) <> None.
Proof.
  split.
  - unfold classifyToolResult. case_includes; reflexivity.
  - unfold classifyObservation. case_includes; vm_compute; discriminate.
Qed.

(** X4.  [calculateImportance] never goes below the base importance of the
    type, never above 1.0, and returns the base itself when the output
    holds none of "error", "failed", "success", "completed". *)
Theorem calculateImportance_boost (t toolName input output : string) :
  PrimFloat.leb (nullish (lookup typeImportance t) 0.5%float)
                (calculateImportance t toolName input output) = true /\
  PrimFloat.leb (calculateImportance t toolName input output) 1 = true /\
  (boostSignal output = false ->
   calculateImportance t toolName input output
   = nullish (lookup typeImportance t) 0.5%float).
Proof.
  unfold calculateImportance, boostSignal. cbv zeta.
  pose proof (lookup_typeImportance t) as Hin.
  set (base := nullish (lookup typeImportance t) 0.5%float) in *.
  clearbody base.
  destruct (includes (toLowerCase output) "error"),
           (includes (toLowerCase output) "failed"),
           (includes (toLowerCase output) "success"),
           (includes (toLowerCase output) "completed");
    simpl in Hin;
    intuition (subst base; first [vm_compute; reflexivity | discriminate]).
Qed.

(** ** Truncation *)

Lemma length_append (s1 s2 : string) :
  String.length (s1 ++ s2) = (String.length s1 + String.length s2)%nat.
Proof. induction s1 as [|c s1 IH]; simpl; [reflexivity|]. now rewrite IH. Qed.

Lemma length_substring0 (n : nat) (s : string) :
  String.length (substring0 n s) = Nat.min n (String.length s).
Proof.
  unfold substring0. revert s.
  induction n as [|n IH]; intros [|c s]; simpl; try reflexivity.
  now rewrite IH.
Qed.

Lemma prefix_substring0_append (n : nat) (s tail : string) :
  String.prefix (substring0 n s) (substring0 n s ++ tail) = true.
Proof.
  generalize (substring0 n s) as p.
  induction p as [|c p IH]; simpl.
  - destruct tail; reflexivity.
  - destruct (ascii_dec c c); [exact IH|congruence].
Qed.

Lemma truncateForStorage_length (text : string) (maxLength : Z) :
  Z.of_nat (String.length (truncateForStorage text maxLength)) <= Z.max 0 maxLength + 15.
Proof.
  unfold truncateForStorage.
  destruct (Z.of_nat (String.length text) <=? maxLength) eqn:E.
  - apply Z.leb_le in E. lia.
  - rewrite length_append, length_substring0. simpl String.length. lia.
Qed.

(** X5.  [truncateForStorage] returns a text of at most [maxLength]
    characters unchanged; a longer text is cut to its first [maxLength]
    characters followed by the 15-character marker, so that a stored text
    may be up to [maxLength + 15] characters long, never more. *)
Theorem truncateForStorage_spec (text : string) (maxLength : Z) :
  (Z.of_nat (String.length text) <= maxLength ->
   truncateForStorage text maxLength = text) /\
  (0 <= maxLength < Z.of_nat (String.length text) ->
   Z.of_nat (String.length (truncateForStorage text maxLength)) = maxLength + 15 /\
   String.prefix (substring0 (Z.to_nat maxLength) text)
                 (truncateForStorage text maxLength) = true /\
   String.prefix (substring0 (Z.to_nat maxLength) text) text = true) /\
  Z.of_nat (String.length (truncateForStorage text maxLength)) <= Z.max 0 maxLength + 15.
Proof.
  split; [|split; [|apply truncateForStorage_length]].
  - intros H. unfold truncateForStorage.
    apply Z.leb_le in H. now rewrite H.
  - intros [H0 H]. unfold truncateForStorage.
    apply Z.leb_gt in H. rewrite H. split; [|split].
    + rewrite length_append, length_substring0. simpl String.length.
      apply Z.leb_gt in H. lia.
    + apply prefix_substring0_append.
    + unfold substring0. generalize (Z.to_nat maxLength) as n. clear.
      intros n. revert text. induction n as [|n IH]; intros [|c s]; simpl; try reflexivity.
      destruct (ascii_dec c c); [apply IH|congruence].
Qed.

(** ** Ingestion *)

Lemma find_session_In (key : string) (l : list Session) (s : Session) :
  find (fun x => String.eqb (session_key x) key) l = Some s ->
  In s l /\ session_key s = key.
Proof.
  intros H. apply find_some in H. destruct H as [Hin E].
  apply String.eqb_eq in E. tauto.
Qed.

Lemma find_session_snoc (key : string) (l : list Session) (row : Session) :
  find (fun x => String.eqb (session_key x) key) l = None ->
  session_key row = key ->
  find (fun x => String.eqb (session_key x) key) (l ++ [row]) = Some row.
Proof.
  intros Hnone Hkey. induction l as [|x l IH]; simpl in *.
  - now rewrite Hkey, String.eqb_refl.
  - destruct (String.eqb (session_key x) key); [discriminate|exact (IH Hnone)].
Qed.

Lemma find_none_existsb {A : Type} (f : A -> bool) (l : list A) :
  find f l = None -> existsb f l = false.
Proof.
  induction l as [|x l IH]; simpl; [reflexivity|].
  destruct (f x); [discriminate|exact IH].
Qed.

Lemma existsb_session_id (s : Session) (l : list Session) :
  In s l -> existsb (fun x => s_id x =? s_id s) l = true.
Proof.
  intros H. apply existsb_exists. exists s. split; [exact H|apply Z.eqb_refl].
Qed.

(** The get-or-create sequence always yields a stored session of the given
    key and touches nothing but, at most, the sessions table. *)
Lemma getOrCreateSession_spec (now : Z) (key : string) (db : Db) :
  exists s db1,
    getOrCreateSession now key db = (Ok s, db1) /\
    getSession db1 key = Some s /\ In s (sessions db1) /\
    observations db1 = observations db /\
    seq_observations db1 = seq_observations db /\
    (forall s0, getSession db key = Some s0 -> s = s0 /\ db1 = db) /\
    (getSession db key = None -> sessions db1 = (sessions db ++ [s])%list).
Proof.
  unfold getOrCreateSession, bind, query, ret.
  destruct (getSession db key) as [s|] eqn:E.
  - exists s, db. split; [reflexivity|]. split; [exact E|].
    split; [apply (find_session_In key _ s E)|].
    split; [reflexivity|]. split; [reflexivity|]. split.
    + intros s0 [= <-]. now split.
    + discriminate.
  - unfold getSession in E. unfold createSession.
    rewrite (find_none_existsb _ _ E).
    eexists. eexists. split; [reflexivity|]. simpl.
    split; [unfold getSession; simpl; now apply find_session_snoc|].
    split; [apply in_or_app; right; now left|].
    split; [reflexivity|]. split; [reflexivity|]. split.
    + discriminate.
    + reflexivity.
Qed.

(** X6.  The tool-result hook never fails: it appends exactly one
    observation to the store, owned by the session of the given key (created
    on the spot when absent), stamped with the time of the call and without
    summary or token count.  Its type is the caller's unless that is
    missing or empty, its importance the caller's unless that is missing
    (an importance of 0 is kept); otherwise both come from
    [classifyObservation] and [calculateImportance]. *)
Theorem hooks_tool_result_stores (now : Z) (body : ToolResultBody) (db : Db) :
  exists session o db',
    hooks_tool_result now body db = (Ok o, db') /\
    getSession db' (tr_session_key body) = Some session /\
    session_id o = s_id session /\
    observations db' = (observations db ++ [o])%list /\
    id o = seq_observations db + 1 /\
    created_at o = now /\ summary o = None /\ tokens o = None /\
    tool_name o = truthyStr (Some (tr_tool_name body)) /\
    type o = match truthyStr (tr_type body) with
             | Some t => t
             | None => classifyObservation (tr_tool_name body) (tr_input body)
                                           (tr_output body)
             end /\
    importance o = match tr_importance body with
                   | Some x => x
                   | None => calculateImportance (type o) (tr_tool_name body)
                                                 (tr_input body) (tr_output body)
                   end.
Proof.
  destruct (getOrCreateSession_spec now (tr_session_key body) db)
    as (s & db1 & Hget & Hs & Hin & Hobs & Hseq & _).
  unfold hooks_tool_result, bind. rewrite Hget.
  unfold createObservation. cbn [n_session_id].
  rewrite (existsb_session_id s _ Hin).
  eexists s, _, _. split; [reflexivity|].
  cbn. rewrite Hobs, Hseq. repeat split; try reflexivity. exact Hs.
Qed.

(** X7.  Whatever the tool sent, the input stored by the tool-result hook is
    at most 5015 characters long and the output at most 10015: the limits
    5000 and 10000, plus the truncation marker. *)
Theorem hooks_tool_result_bounded (now : Z) (body : ToolResultBody) (db : Db) :
  exists o db',
    hooks_tool_result now body db = (Ok o, db') /\
    Z.of_nat (String.length (orStr (input o) "")) <= 5015 /\
    Z.of_nat (String.length (orStr (output o) "")) <= 10015 /\
    (Z.of_nat (String.length (tr_input body)) <= 5000 ->
     input o = truthyStr (Some (tr_input body))) /\
    (Z.of_nat (String.length (tr_output body)) <= 10000 ->
     output o = truthyStr (Some (tr_output body))).
Proof.
  destruct (getOrCreateSession_spec now (tr_session_key body) db)
    as (s & db1 & Hget & Hs & Hin & Hobs & Hseq & _).
  unfold hooks_tool_result, bind. rewrite Hget.
  unfold createObservation. cbn [n_session_id].
  rewrite (existsb_session_id s _ Hin).
  eexists _, _. split; [reflexivity|]. cbn [input output n_input n_output].
  assert (Hor : forall t, String.length (orStr (truthyStr (Some t)) "") = String.length t).
  { intros [|c t]; reflexivity. }
  rewrite !Hor. split; [|split; [|split]].
  - apply (truncateForStorage_length (tr_input body) 5000).
  - apply (truncateForStorage_length (tr_output body) 10000).
  - intros H. unfold truncateForStorage. apply Z.leb_le in H. now rewrite H.
  - intros H. unfold truncateForStorage. apply Z.leb_le in H. now rewrite H.
Qed.

(** X8.  [POST /api/observations] never fails either: it appends exactly one
    observation owned by the session of the given key, created when absent,
    with the importance of the body, or 0.5 when the body has none. *)
Theorem api_observations_stores (now : Z) (body : ObservationBody) (db : Db) :
  exists session o db',
    api_observations now body db = (Ok o, db') /\
    getSession db' (ob_session_key body) = Some session /\
    session_id o = s_id session /\
    observations db' = (observations db ++ [o])%list /\
    id o = seq_observations db + 1 /\
    type o = ob_type body /\
    importance o = nullish (ob_importance body) 0.5%float /\
    tokens o = truthyNum (ob_tokens body) /\
    summary o = truthyStr (ob_summary body).
Proof.
  destruct (getOrCreateSession_spec now (ob_session_key body) db)
    as (s & db1 & Hget & Hs & Hin & Hobs & Hseq & _).
  unfold api_observations, bind. rewrite Hget.
  unfold createObservation. cbn [n_session_id].
  rewrite (existsb_session_id s _ Hin).
  eexists s, _, _. split; [reflexivity|].
  cbn. rewrite Hobs, Hseq. repeat split; try reflexivity. exact Hs.
Qed.

(** ** Sessions and observations in the store *)

Lemma find_app_none {A : Type} (f : A -> bool) (l t : list A) :
  find f l = None -> find f (l ++ t) = find f t.
Proof.
  induction l as [|x l IH]; simpl; [reflexivity|].
  destruct (f x); [discriminate|exact IH].
Qed.

Lemma find_app_some {A : Type} (f : A -> bool) (l t : list A) (x : A) :
  find f l = Some x -> find f (l ++ t) = Some x.
Proof.
  induction l as [|y l IH]; simpl; [discriminate|].
  destruct (f y); [trivial|exact IH].
Qed.

Lemma find_snoc_other {A : Type} (f : A -> bool) (l : list A) (row : A) :
  f row = false -> find f (l ++ [row]) = find f l.
Proof.
  intros H. induction l as [|x l IH]; simpl; [now rewrite H|].
  destruct (f x); [reflexivity|exact IH].
Qed.

(** X9.  [createSession] and [getSession] round-trip: on a key that is not
    stored, [createSession] succeeds and [getSession] then returns the new,
    open session; on a stored key it throws the [UNIQUE] violation and
    leaves the store as it was; in both cases the sessions of other keys
    and all observations are untouched. *)
Theorem createSession_getSession (now : Z) (key : string) (path : option string) (db : Db) :
  (getSession db key = None ->
   exists row db',
     createSession now key path db = (Ok row, db') /\
     getSession db' key = Some row /\
     session_key row = key /\ s_id row = seq_sessions db + 1 /\
     project_path row = truthyStr path /\ started_at row = now /\
     ended_at row = None /\ s_summary row = None) /\
  (forall s, getSession db key = Some s ->
             createSession now key path db = (Throw SQLITE_CONSTRAINT_UNIQUE, db)) /\
  (forall k, k <> key ->
             getSession (snd (createSession now key path db)) k = getSession db k) /\
  observations (snd (createSession now key path db)) = observations db.
Proof.
  unfold getSession, createSession. split; [|split; [|split]].
  - intros Hnone. rewrite (find_none_existsb _ _ Hnone).
    eexists. eexists. split; [reflexivity|]. simpl.
    split; [now apply find_session_snoc|]. repeat split.
  - intros s Hs. apply find_some in Hs.
    assert (E : existsb (fun x => String.eqb (session_key x) key) (sessions db) = true)
      by (apply existsb_exists; exists s; exact Hs).
    now rewrite E.
  - intros k Hk. destruct (existsb _ (sessions db)); simpl; [reflexivity|].
    apply find_snoc_other. simpl. apply String.eqb_neq. congruence.
  - destruct (existsb _ (sessions db)); reflexivity.
Qed.

Lemma find_map_session (key : string) (upd : Session -> Session) (l : list Session) :
  (forall s, session_key (upd s) = session_key s) ->
  find (fun s => String.eqb (session_key s) key) (map upd l)
  = option_map upd (find (fun s => String.eqb (session_key s) key) l).
Proof.
  intros Hupd. induction l as [|x l IH]; simpl; [reflexivity|].
  rewrite Hupd. destruct (String.eqb (session_key x) key); [reflexivity|exact IH].
Qed.

(** X10.  [endSession] always succeeds.  On a stored key it stamps
    [ended_at] with the time of the call and replaces the summary by the
    given one, or by null when none (or an empty one) is given, also when
    the session was closed before; on an unknown key it changes nothing.
    Other sessions and all observations are untouched. *)
Theorem endSession_closes (now : Z) (key : string) (summary : option string) (db : Db) :
  fst (endSession now key summary db) = Ok tt /\
  (forall s, getSession db key = Some s ->
     exists s', getSession (snd (endSession now key summary db)) key = Some s' /\
       ended_at s' = Some now /\ s_summary s' = truthyStr summary /\
       s_id s' = s_id s /\ session_key s' = key /\
       project_path s' = project_path s /\ started_at s' = started_at s) /\
  (getSession db key = None -> snd (endSession now key summary db) = db) /\
  (forall k, k <> key ->
     getSession (snd (endSession now key summary db)) k = getSession db k) /\
  observations (snd (endSession now key summary db)) = observations db.
Proof.
  unfold getSession, endSession; simpl.
  set (upd := fun s : Session =>
     if String.eqb (session_key s) key
     then mkSession (s_id s) (session_key s) (project_path s) (started_at s)
                    (Some now) (truthyStr summary) (summary_tokens s) (s_metadata s)
     else s).
  assert (Hupd : forall s, session_key (upd s) = session_key s)
    by (intros s; unfold upd; destruct (String.eqb (session_key s) key); reflexivity).
  split; [reflexivity|]. split; [|split; [|split; [|reflexivity]]].
  - intros s Hs. rewrite (find_map_session key upd _ Hupd), Hs. simpl.
    destruct (find_session_In key _ s Hs) as [_ Hkey].
    exists (upd s). split; [reflexivity|]. unfold upd.
    rewrite Hkey, String.eqb_refl. simpl. repeat split; trivial.
  - intros Hnone. destruct db as [ss os q1 q2]; simpl in *. f_equal.
    rewrite <- (map_id ss) at 2. apply map_ext_in. intros s Hin.
    pose proof (find_none _ _ Hnone s Hin) as Hf. simpl in Hf.
    unfold upd. now rewrite Hf.
  - intros k Hk. rewrite (find_map_session k upd _ Hupd).
    destruct (find (fun s => String.eqb (session_key s) k) (sessions db)) as [s|] eqn:E;
      [|reflexivity].
    simpl. destruct (find_session_In k _ s E) as [_ Hkey].
    unfold upd. assert (Hne : String.eqb (session_key s) key = false)
      by (apply String.eqb_neq; congruence).
    now rewrite Hne.
Qed.

(** X11.  [createObservation] and [getObservation] round-trip: when the
    owning session exists the insert succeeds under an id that was not in
    use, [getObservation] returns the new row for that id and what it
    returned before for every other id; when the session does not exist
    the insert throws the foreign-key violation and leaves the store as it
    was. *)
Theorem createObservation_getObservation (now : Z) (obs : NewObservation) (db : Db) :
  reachable db ->
  (getSessionById db (n_session_id obs) = None ->
   createObservation now obs db = (Throw SQLITE_CONSTRAINT_FOREIGNKEY, db)) /\
  (forall s, getSessionById db (n_session_id obs) = Some s ->
   exists row db',
     createObservation now obs db = (Ok row, db') /\
     getObservation db (id row) = None /\
     getObservation db' (id row) = Some row /\
     (forall i, i <> id row -> getObservation db' i = getObservation db i) /\
     session_id row = s_id s /\ created_at row = now).
Proof.
  intros Hreach.
  destruct (reachable_invariant db Hreach) as (Hseq & _ & Hids & _).
  unfold getSessionById, createObservation, getObservation. split.
  - intros Hnone. now rewrite (find_none_existsb _ _ Hnone).
  - intros s Hs. apply find_some in Hs.
    assert (E : existsb (fun x => s_id x =? n_session_id obs) (sessions db) = true)
      by (apply existsb_exists; exists s; exact Hs).
    rewrite E. eexists. eexists. split; [reflexivity|]. simpl.
    assert (Hfresh : find (fun o => id o =? seq_observations db + 1) (observations db) = None).
    { destruct (find _ (observations db)) as [o|] eqn:F; [|reflexivity].
      apply find_some in F. destruct F as [Hin F]. apply Z.eqb_eq in F.
      rewrite Forall_forall in Hids. specialize (Hids o Hin). lia. }
    split; [exact Hfresh|]. split; [|split; [|split]].
    + rewrite (find_app_none _ _ _ Hfresh). simpl. now rewrite Z.eqb_refl.
    + intros i Hi. apply find_snoc_other. simpl. apply Z.eqb_neq. congruence.
    + symmetry. apply Z.eqb_eq. tauto.
    + reflexivity.
Qed.

Lemma evolves_observations (db db' : Db) :
  evolves db db' -> exists tail, observations db' = (observations db ++ tail)%list.
Proof.
  induction 1 as [|db' now key path _ [tail IH]|db' now key s _ [tail IH]
                  |db' now obs _ [tail IH]].
  - exists []. now rewrite app_nil_r.
  - exists tail. unfold createSession.
    destruct (existsb _ (sessions db')); exact IH.
  - exists tail. exact IH.
  - unfold createObservation. destruct (existsb _ (sessions db')).
    + eexists. simpl. rewrite IH, <- app_assoc. reflexivity.
    + exists tail. exact IH.
Qed.

(** X12.  No write operation deletes or alters an observation: whatever
    sequence of [createSession], [endSession] and [createObservation] calls
    follows, the observations stored before remain, in place and unchanged,
    and [getObservation] keeps returning the same row for an id it
    resolved. *)
Theorem observations_append_only (db db' : Db) :
  evolves db db' ->
  (exists tail, observations db' = (observations db ++ tail)%list) /\
  (forall i o, getObservation db i = Some o -> getObservation db' i = Some o) /\
  (List.length (observations db) <= List.length (observations db'))%nat.
Proof.
  intros H. destruct (evolves_observations db db' H) as [tail Htail].
  split; [exists tail; exact Htail|]. split.
  - intros i o Ho. unfold getObservation in *. rewrite Htail.
    now apply find_app_some.
  - rewrite Htail, length_app. lia.
Qed.

Lemma reachable_sessions (db : Db) :
  reachable db ->
  0 <= seq_sessions db /\
  Forall (fun s => 1 <= s_id s <= seq_sessions db) (sessions db) /\
  NoDup (map s_id (sessions db)) /\
  Forall (fun o => existsb (fun s => s_id s =? session_id o) (sessions db) = true)
         (observations db).
Proof.
  induction 1 as [|db now key path _ (Hq & Hr & Hn & Hfk)
                  |db now key s _ (Hq & Hr & Hn & Hfk)
                  |db now obs _ (Hq & Hr & Hn & Hfk)].
  - simpl. repeat split; try constructor. lia.
  - unfold createSession.
    destruct (existsb _ (sessions db)); simpl; [repeat split; assumption|].
    split; [lia|]. split; [|split].
    + apply Forall_app. split.
      * eapply Forall_impl; [|exact Hr]. simpl. intros x Hx. lia.
      * repeat constructor; simpl; lia.
    + rewrite map_app. apply NoDup_snoc; [exact Hn|]. simpl.
      intros Hin. apply in_map_iff in Hin. destruct Hin as (x & Hx & Hin).
      rewrite Forall_forall in Hr. specialize (Hr x Hin). lia.
    + eapply Forall_impl; [|exact Hfk]. simpl. intros o Ho.
      rewrite existsb_app, Ho. reflexivity.
  - unfold endSession; simpl.
    set (upd := fun x : Session => if String.eqb (session_key x) key then _ else x).
    assert (Hid : forall x, s_id (upd x) = s_id x)
      by (intros x; unfold upd; destruct (String.eqb (session_key x) key); reflexivity).
    split; [exact Hq|]. split; [|split].
    + apply Forall_map. eapply Forall_impl; [|exact Hr]. simpl.
      intros x Hx. now rewrite Hid.
    + rewrite map_map. erewrite map_ext; [exact Hn|]. exact Hid.
    + eapply Forall_impl; [|exact Hfk]. simpl. intros o Ho.
      apply existsb_exists in Ho. destruct Ho as (x & Hin & Hx).
      apply existsb_exists. exists (upd x). split; [now apply in_map|].
      now rewrite Hid.
  - unfold createObservation.
    destruct (existsb _ (sessions db)) eqn:E; simpl; [|repeat split; assumption].
    repeat split; try assumption.
    apply Forall_app. split; [exact Hfk|]. repeat constructor. exact E.
Qed.

(** X13.  Every store reached through the write operations satisfies the
    constraints of the schema: each observation belongs to a stored session,
    and session ids, session keys and observation ids are each unique. *)
Theorem reachable_schemaConstraints (db : Db) :
  reachable db -> schemaConstraints db.
Proof.
  intros H.
  destruct (reachable_sessions db H) as (_ & _ & Hn & Hfk).
  destruct (reachable_invariant db H) as (_ & _ & _ & Hids & Hkeys).
  repeat split; try assumption.
  intros o Ho. rewrite Forall_forall in Hfk. specialize (Hfk o Ho).
  apply existsb_exists in Hfk. destruct Hfk as (s & Hin & Hs).
  exists s. split; [exact Hin|]. now apply Z.eqb_eq.
Qed.

(** ** Retrieval *)

Lemma budgetLoop_prefix (ceiling : Z) (rows acc : list Observation) (tot : Z) :
  exists taken rest,
    rows = (taken ++ rest)%list /\
    ctx_observations (budgetLoop ceiling rows acc tot) = (acc ++ taken)%list /\
    (tot <= ceiling -> totalTokens (budgetLoop ceiling rows acc tot) <= ceiling) /\
    (taken = [] -> totalTokens (budgetLoop ceiling rows acc tot) = tot).
Proof.
  revert acc tot. induction rows as [|row rows IH]; intros acc tot; simpl.
  - exists [], []. simpl. rewrite app_nil_r. repeat split; trivial.
  - destruct (tot + obsTokens row <=? ceiling) eqn:E.
    + apply Z.leb_le in E.
      destruct (IH (acc ++ [row])%list (tot + obsTokens row))
        as (taken & rest & Hsplit & Hobs & Hfit & _).
      exists (row :: taken), rest. split; [simpl; now rewrite Hsplit|].
      split; [rewrite Hobs, <- app_assoc; reflexivity|].
      split; [intros _; exact (Hfit E)|discriminate].
    + exists [], (row :: rows). simpl. rewrite app_nil_r. repeat split; trivial.
Qed.

(** X14.  Whatever the store holds, every observation selected for
    injection is a stored one of an included type (decision, bugfix or
    architecture unless the caller lists others) with importance at least
    0.5, owned, when a project path is given, by a session of that project;
    at most 100 are selected; and the total never exceeds a non-negative
    ceiling. *)
Theorem getContextForInjection_sound (db : Db) (options : ContextOptions) :
  (forall o, In o (ctx_observations (getContextForInjection db options)) ->
     In o (observations db) /\
     In (type o) (nullish (includeTypes options) ["decision"; "bugfix"; "architecture"]) /\
     PrimFloat.leb 0.5 (importance o) = true /\
     (forall p, truthyStr (projectPath options) = Some p ->
        exists s, In s (sessions db) /\ s_id s = session_id o /\
                  project_path s = Some p)) /\
  (List.length (ctx_observations (getContextForInjection db options)) <= 100)%nat /\
  (0 <= orNum (maxTokens options) 4000 ->
   totalTokens (getContextForInjection db options) <= orNum (maxTokens options) 4000).
Proof.
  unfold getContextForInjection.
  destruct (budgetLoop_prefix (orNum (maxTokens options) 4000)
              (contextCandidates db options) [] 0)
    as (taken & rest & Hsplit & Hobs & Hfit & _).
  rewrite Hobs. simpl. split; [|split; [|exact Hfit]].
  - intros o Ho.
    assert (Hc : In o (contextCandidates db options))
      by (rewrite Hsplit; apply in_or_app; now left).
    unfold contextCandidates in Hc.
    apply sqlLimit_In, orderBy_In, filter_In in Hc. destruct Hc as [Hin Hc].
    apply andb_true_iff in Hc. destruct Hc as [Hc Hproj].
    apply andb_true_iff in Hc. destruct Hc as [Htype Himp].
    split; [exact Hin|]. split; [|split; [exact Himp|]].
    + apply existsb_exists in Htype. destruct Htype as (t & Ht & E).
      apply String.eqb_eq in E. now rewrite E.
    + intros p Hp. rewrite Hp in Hproj.
      apply existsb_exists in Hproj. destruct Hproj as (s & Hs & E).
      apply andb_true_iff in E. destruct E as [Eid Epath].
      exists s. split; [exact Hs|]. split; [now apply Z.eqb_eq|].
      destruct (project_path s) as [q|]; [|discriminate].
      apply String.eqb_eq in Epath. now subst.
  - pose proof (contextCandidates_cap db options) as Hcap.
    rewrite Hsplit, length_app in Hcap. lia.
Qed.

Section SearchResults.

Variable fts5 : string -> option (list Observation -> Observation -> option float).

Lemma ftsMatches_In (db : Db) (rank : list Observation -> Observation -> option float)
    (hit : Observation * float) :
  In hit (ftsMatches db rank) ->
  In (fst hit) (observations db) /\ rank (observations db) (fst hit) = Some (snd hit).
Proof.
  unfold ftsMatches. intros H. apply in_flat_map in H.
  destruct H as (o & Ho & H). destruct (rank (observations db) o) as [r|] eqn:E.
  - destruct H as [<- | []]. simpl. now split.
  - destruct H.
Qed.

(** X15.  [search] throws exactly when the engine rejects the query.
    Otherwise every row it returns comes from a stored observation that
    the engine matched, carrying that observation's rank; with a type
    filter every row has that type, with a [since] bound none is older; and
    no more rows are returned than the limit, 10 when none (or 0) is given. *)
Theorem search_sound (db : Db) (query : string) (options : SearchOptions) :
  match fts5 query with
  | None => search fts5 db query options = Throw SQLITE_ERROR_fts5_syntax
  | Some rank =>
    exists rows,
      search fts5 db query options = Ok rows /\
      (forall r, In r rows ->
         exists o, In o (observations db) /\
                   rank (observations db) o = Some (sr_rank r) /\
                   r = toSearchResult (o, sr_rank r) /\
                   (forall t, truthyStr (so_type options) = Some t -> type o = t) /\
                   (forall since, so_since options = Some since ->
                                  since <= created_at o)) /\
      (0 <= orNum (so_limit options) 10 ->
       Z.of_nat (List.length rows) <= orNum (so_limit options) 10)
  end.
Proof.
  unfold search. destruct (fts5 query) as [rank|]; [|reflexivity].
  eexists. split; [reflexivity|]. split.
  - intros r Hr. apply in_map_iff in Hr. destruct Hr as ([o x] & <- & Hr).
    apply sqlLimit_In, orderBy_In in Hr. exists o. simpl.
    assert (Hm : In (o, x) (ftsMatches db rank) /\
                 (forall t, truthyStr (so_type options) = Some t -> type o = t) /\
                 (forall since, so_since options = Some since -> since <= created_at o)).
    { destruct (truthyStr (so_type options)) as [t|], (so_since options) as [since|];
        repeat match goal with
               | H : In _ (filter _ _) |- _ =>
                 apply filter_In in H; destruct H as [H ?]
               end; simpl in *.
      - split; [exact Hr|]. split.
        + intros t' [= <-]. now apply String.eqb_eq.
        + intros s' [= <-]. now apply Z.leb_le.
      - split; [exact Hr|]. split; [|discriminate].
        intros t' [= <-]. now apply String.eqb_eq.
      - split; [exact Hr|]. split; [discriminate|].
        intros s' [= <-]. now apply Z.leb_le.
      - split; [exact Hr|]. split; discriminate. }
    destruct Hm as (Hm & Ht & Hs). apply ftsMatches_In in Hm. simpl in Hm.
    destruct Hm as [Hin Hrank]. repeat split; assumption.
  - intros Hlim. rewrite length_map. unfold sqlLimit.
    destruct (orNum (so_limit options) 10 <? 0) eqn:E; [apply Z.ltb_lt in E; lia|].
    pose proof (firstn_le_length (Z.to_nat (orNum (so_limit options) 10))
      (orderBy (fun a b => PrimFloat.leb (snd a) (snd b))
         match so_since options with
         | Some since =>
           filter (fun hit => since <=? created_at (fst hit))
             match truthyStr (so_type options) with
             | Some t => filter (fun hit => String.eqb (type (fst hit)) t)
                                (ftsMatches db rank)
             | None => ftsMatches db rank
             end
         | None =>
           match truthyStr (so_type options) with
           | Some t => filter (fun hit => String.eqb (type (fst hit)) t)
                              (ftsMatches db rank)
           | None => ftsMatches db rank
           end
         end)) as Hle.
    lia.
Qed.

End SearchResults.

Lemma StronglySorted_app_cross {A : Type} (R : A -> A -> Prop) (l1 l2 : list A) :
  StronglySorted R (l1 ++ l2) ->
  forall x y, In x l1 -> In y l2 -> R x y.
Proof.
  induction l1 as [|a l1 IH]; simpl; intros Hs x y Hx Hy; [destruct Hx|].
  apply StronglySorted_inv in Hs. destruct Hs as [Hs Ha].
  destruct Hx as [<- | Hx].
  - rewrite Forall_forall in Ha. apply Ha, in_or_app. now right.
  - now apply IH.
Qed.

(** The rows [ORDER BY key DESC LIMIT n] keeps and the rows it leaves
    out. *)
Lemma most_recent {A : Type} (key : A -> Z) (n : Z) (rows : list A) :
  exists rest,
    Permutation (sqlLimit n (orderBy (fun a b => key b <=? key a) rows) ++ rest) rows /\
    (forall r o, In r (sqlLimit n (orderBy (fun a b => key b <=? key a) rows)) ->
                 In o rest -> key o <= key r) /\
    (n < 0 -> rest = []) /\
    (0 <= n -> List.length (sqlLimit n (orderBy (fun a b => key b <=? key a) rows))
               = Nat.min (Z.to_nat n) (List.length rows)).
Proof.
  unfold sqlLimit. set (sorted := orderBy (fun a b => key b <=? key a) rows).
  destruct (n <? 0) eqn:E.
  - exists []. rewrite app_nil_r. apply Z.ltb_lt in E.
    split; [apply orderBy_perm|]. split; [intros r o _ []|]. split; [reflexivity|lia].
  - apply Z.ltb_ge in E. exists (skipn (Z.to_nat n) sorted).
    rewrite firstn_skipn. split; [apply orderBy_perm|]. split; [|split; [lia|]].
    + intros r o Hr Ho.
      pose proof (orderBy_desc_sorted key rows) as Hs. fold sorted in Hs.
      rewrite <- (firstn_skipn (Z.to_nat n) sorted) in Hs.
      exact (StronglySorted_app_cross _ _ _ Hs r o Hr Ho).
    + intros _. rewrite length_firstn. unfold sorted. now rewrite orderBy_length.
Qed.

(** X16.  [getRecentObservations] and [getRecentSessions] return the most
    recent rows, newest first: the rows returned and the rows left out make
    up the table, no row left out is newer than a returned one, and the
    number returned is the limit (10 sessions when none is given) or the
    size of the table if that is smaller; a negative limit returns the
    whole table. *)
Theorem recent_rows (db : Db) (limit : Z) (sessionLimit : option Z) :
  (exists rest,
     Permutation (getRecentObservations db limit ++ rest) (observations db) /\
     (forall r o, In r (getRecentObservations db limit) -> In o rest ->
                  created_at o <= created_at r) /\
     (limit < 0 -> rest = []) /\
     (0 <= limit -> List.length (getRecentObservations db limit)
                    = Nat.min (Z.to_nat limit) (List.length (observations db)))) /\
  StronglySorted (fun a b => created_at b <= created_at a)
                 (getRecentObservations db limit) /\
  (exists rest,
     Permutation (getRecentSessions db sessionLimit ++ rest) (sessions db) /\
     (forall r o, In r (getRecentSessions db sessionLimit) -> In o rest ->
                  started_at o <= started_at r)) /\
  List.length (getRecentSessions db None) = Nat.min 10 (List.length (sessions db)).
Proof.
  split; [apply (most_recent created_at limit (observations db))|]. split; [|split].
  - unfold getRecentObservations, sqlLimit.
    pose proof (orderBy_desc_sorted created_at (observations db)) as Hs.
    destruct (limit <? 0); [exact Hs|].
    rewrite <- (firstn_skipn (Z.to_nat limit) _) in Hs.
    revert Hs. generalize (skipn (Z.to_nat limit)
      (orderBy (fun a b => created_at b <=? created_at a) (observations db))).
    generalize (firstn (Z.to_nat limit)
      (orderBy (fun a b => created_at b <=? created_at a) (observations db))).
    intros l1. induction l1 as [|a l1 IH]; intros l2 Hs; [constructor|].
    simpl in Hs. apply StronglySorted_inv in Hs. destruct Hs as [Hs Ha].
    constructor; [exact (IH l2 Hs)|].
    rewrite Forall_forall in *. intros x Hx. apply Ha, in_or_app. now left.
  - destruct (most_recent started_at (nullish sessionLimit 10) (sessions db))
      as (rest & Hp & Hc & _).
    exists rest. split; [exact Hp|exact Hc].
  - destruct (most_recent started_at 10 (sessions db)) as (rest & _ & _ & _ & Hl).
    apply Hl. lia.
Qed.

(** ** Statistics *)

Lemma countOf_bump (t t' : string) (groups : list (string * Z)) :
  countOf (bump t groups) t'
  = if String.eqb t t' then Some (nullish (countOf groups t') 0 + 1)
    else countOf groups t'.
Proof.
  induction groups as [|[k n] rest IH]; simpl.
  - destruct (String.eqb t t'); reflexivity.
  - destruct (String.eqb k t) eqn:Ekt; simpl.
    + apply String.eqb_eq in Ekt. subst k.
      destruct (String.eqb t t'); reflexivity.
    + destruct (String.eqb k t') eqn:Ekt'.
      * apply String.eqb_eq in Ekt'. subst k. now rewrite String.eqb_sym, Ekt.
      * exact IH.
Qed.

Lemma sum_bump (t : string) (groups : list (string * Z)) :
  fold_right (fun g acc => snd g + acc) 0 (bump t groups)
  = fold_right (fun g acc => snd g + acc) 0 groups + 1.
Proof.
  induction groups as [|[k n] rest IH]; simpl; [reflexivity|].
  destruct (String.eqb k t); simpl; lia.
Qed.

Lemma groups_fold (rows : list Observation) (groups : list (string * Z)) :
  let result := fold_left (fun g o => bump (type o) g) rows groups in
  (forall t, nullish (countOf result t) 0
             = nullish (countOf groups t) 0
               + Z.of_nat (List.length (filter (fun o => String.eqb (type o) t) rows))) /\
  (forall t, countOf result t = None <->
             countOf groups t = None /\ forall o, In o rows -> type o <> t) /\
  fold_right (fun g acc => snd g + acc) 0 result
  = fold_right (fun g acc => snd g + acc) 0 groups + Z.of_nat (List.length rows).
Proof.
  revert groups. induction rows as [|row rows IH]; intros groups; simpl.
  - split; [intros t; lia|]. split; [|lia]. intros t. tauto.
  - destruct (IH (bump (type row) groups)) as (Hc & Hn & Hs).
    split; [|split].
    + intros t. rewrite Hc, countOf_bump.
      destruct (String.eqb (type row) t); simpl; lia.
    + intros t. rewrite Hn, countOf_bump.
      destruct (String.eqb (type row) t) eqn:E.
      * apply String.eqb_eq in E. split; [intros [H _]; discriminate|].
        intros [_ H]. exfalso. apply (H row); [now left|exact E].
      * apply String.eqb_neq in E. split.
        -- intros [H1 H2]. split; [exact H1|]. intros o [<- | Ho]; [exact E|now apply H2].
        -- intros [H1 H2]. split; [exact H1|]. intros o Ho. apply H2. now right.
    + rewrite Hs, sum_bump. lia.
Qed.

(** X17.  In [getStats] the per-type counts are exact and add up to the
    total: the entry of a type is the number of stored observations of that
    type, a type without observation has no entry, and the sum of all
    entries is [totalObservations]. *)
Theorem getStats_counts (db : Db) :
  (forall t, nullish (countOf (observationsByType (getStats db)) t) 0
             = Z.of_nat (List.length (filter (fun o => String.eqb (type o) t)
                                             (observations db)))) /\
  (forall t, countOf (observationsByType (getStats db)) t = None <->
             forall o, In o (observations db) -> type o <> t) /\
  fold_right (fun g acc => snd g + acc) 0 (observationsByType (getStats db))
  = totalObservations (getStats db) /\
  totalSessions (getStats db) = Z.of_nat (List.length (sessions db)).
Proof.
  unfold getStats, groupByType. simpl.
  destruct (groups_fold (observations db) []) as (Hc & Hn & Hs).
  split; [intros t; rewrite Hc; reflexivity|]. split; [|split; [rewrite Hs; reflexivity|reflexivity]].
  intros t. rewrite Hn. simpl. tauto.
Qed.

(** ** Lookup handlers *)

Lemma filter_all_false {A : Type} (f : A -> bool) (l : list A) :
  (forall x, In x l -> f x = false) -> filter f l = [].
Proof.
  induction l as [|x l IH]; simpl; intros H; [reflexivity|].
  rewrite (H x (or_introl eq_refl)). apply IH. intros y Hy. apply H. now right.
Qed.

(** X18.  [POST /api/timeline] rejects a missing observation id, and the id
    0, with status 400 before reading the store.  Otherwise it answers with
    the window of [range_hours] hours, 2 when the range is missing or 0: an
    id that resolves to no observation gives an empty list (not a 404), a
    negative range gives an empty list as well, and for any other range the
    center observation is itself part of the answer. *)
Theorem api_timeline_replies (observation_id range_hours : option Z) (db : Db) :
  (truthyNum observation_id = None ->
   api_timeline observation_id range_hours db
   = (Ok (Status 400 "observation_id required"), db)) /\
  (forall i, truthyNum observation_id = Some i ->
   exists obs,
     api_timeline observation_id range_hours db
     = (Ok (Send (mkTimelineResponse i (orNum range_hours 2) obs)), db) /\
     (truthyNum range_hours = None -> obs = getTimeline db i (Some 2)) /\
     (getObservation db i = None -> obs = []) /\
     (forall c, getObservation db i = Some c ->
        (0 <= orNum range_hours 2 -> In c obs) /\
        (orNum range_hours 2 < 0 -> obs = []) /\
        (forall o, In o obs <->
                   In o (observations db) /\
                   inWindow (created_at c) (orNum range_hours 2) o))).
Proof.
  unfold api_timeline. split.
  - intros H. now rewrite H.
  - intros i H. rewrite H. unfold bind, query, ret. eexists. split; [reflexivity|].
    split; [|split].
    + intros Hr. unfold orNum. now rewrite Hr.
    + intros Hnone. unfold getTimeline. now rewrite Hnone.
    + intros c Hc. rewrite (getTimeline_found db i _ c Hc).
      assert (Hiff : forall o,
                In o (orderBy (fun a b => created_at a <=? created_at b)
                        (filter (inWindowb (created_at c) (orNum range_hours 2))
                                (observations db))) <->
                In o (observations db) /\ inWindow (created_at c) (orNum range_hours 2) o)
        by (intros o; rewrite orderBy_In, filter_In, inWindowb_spec; tauto).
      split; [|split; [|exact Hiff]].
      * intros Hr. apply Hiff. unfold getObservation in Hc. apply find_some in Hc.
        split; [tauto|]. unfold inWindow. lia.
      * intros Hr. rewrite filter_all_false; [reflexivity|].
        intros o _. unfold inWindowb. apply andb_false_iff.
        destruct (created_at c - orNum range_hours 2 * 3600 <=? created_at o) eqn:E;
          [right|now left].
        apply Z.leb_le in E. apply Z.leb_gt. lia.
Qed.

Lemma digits_cons (c : ascii) (s : string) (acc : option Z) (k : Z) :
  digitOf c = Some k ->
  digits (String c s) acc = digits s (Some (10 * nullish acc 0 + k)).
Proof. intros H. simpl. now rewrite H. Qed.

Ltac read_digit :=
  match goal with
  | |- context [digits (String ?c _) _] =>
    let k := eval vm_compute in (digitOf c) in
    match k with
    | Some ?n => rewrite (digits_cons c _ _ n eq_refl)
    end
  end.

Lemma digits_acc (d : Decimal.uint) (p : positive) :
  digits (NilEmpty.string_of_uint d) (Some (Z.pos p))
  = Some (Z.pos (Pos.of_uint_acc d p)).
Proof.
  revert p.
  induction d; intros p; cbn [NilEmpty.string_of_uint Pos.of_uint_acc];
    [reflexivity|..];
    read_digit; rewrite <- IHd; do 2 f_equal; cbn [nullish]; lia.
Qed.

Lemma digits_zero (d : Decimal.uint) :
  digits (NilEmpty.string_of_uint d) (Some 0) = Some (Z.of_N (Pos.of_uint d)).
Proof.
  induction d; cbn [NilEmpty.string_of_uint Pos.of_uint];
    [reflexivity|..]; read_digit; cbn [nullish];
    first [exact IHd | apply digits_acc].
Qed.

Lemma parseInt_uint (d : Decimal.uint) :
  d <> Decimal.Nil ->
  parseInt (NilEmpty.string_of_uint d) = Some (Z.of_N (Pos.of_uint d)).
Proof.
  intros Hd. rewrite <- digits_zero.
  destruct d; [congruence|..]; reflexivity.
Qed.

Lemma digits_uint (d : Decimal.uint) :
  d <> Decimal.Nil ->
  digits (NilEmpty.string_of_uint d) None = Some (Z.of_N (Pos.of_uint d)).
Proof.
  intros Hd. rewrite <- digits_zero.
  destruct d; [congruence|..]; reflexivity.
Qed.

Lemma string_of_uint_nonnil (d : Decimal.uint) :
  d <> Decimal.Nil -> NilZero.string_of_uint d = NilEmpty.string_of_uint d.
Proof. destruct d; [congruence|..]; reflexivity. Qed.

(** Template interpolation followed by [parseInt] gives the number back. *)
Lemma parseInt_showZ (z : Z) : parseInt (showZ z) = Some z.
Proof.
  unfold showZ. destruct z as [|p|p]; cbn [Z.to_int NilZero.string_of_int].
  - reflexivity.
  - rewrite string_of_uint_nonnil by apply Unsigned.to_uint_nonnil.
    rewrite parseInt_uint by apply Unsigned.to_uint_nonnil.
    now rewrite Unsigned.of_to.
  - rewrite string_of_uint_nonnil by apply Unsigned.to_uint_nonnil.
    change (parseInt (String "-" (NilEmpty.string_of_uint (Pos.to_uint p))))
      with (option_map Z.opp (digits (NilEmpty.string_of_uint (Pos.to_uint p)) None)).
    rewrite digits_uint by apply Unsigned.to_uint_nonnil.
    now rewrite Unsigned.of_to.
Qed.

Lemma find_by_id (l : list Observation) (o : Observation) :
  NoDup (map id l) -> In o l -> find (fun x => id x =? id o) l = Some o.
Proof.
  induction l as [|x l IH]; simpl; intros Hnd Hin; [destruct Hin|].
  apply NoDup_cons_iff in Hnd. destruct Hnd as [Hx Hl].
  destruct Hin as [-> | Hin]; [now rewrite Z.eqb_refl|].
  destruct (id x =? id o) eqn:E; [|now apply IH].
  apply Z.eqb_eq in E. exfalso. apply Hx. rewrite E. now apply in_map.
Qed.

Lemma find_by_key (l : list Session) (s : Session) :
  NoDup (map session_key l) -> In s l ->
  find (fun x => String.eqb (session_key x) (session_key s)) l = Some s.
Proof.
  induction l as [|x l IH]; simpl; intros Hnd Hin; [destruct Hin|].
  apply NoDup_cons_iff in Hnd. destruct Hnd as [Hx Hl].
  destruct Hin as [-> | Hin]; [now rewrite String.eqb_refl|].
  destruct (String.eqb (session_key x) (session_key s)) eqn:E; [|now apply IH].
  apply String.eqb_eq in E. exfalso. apply Hx. rewrite E. now apply in_map.
Qed.

(** X19.  The lookup handlers find what is stored and answer 404 for what
    is not.  [GET /api/observations/:id] called with the id of a stored
    observation, rendered in decimal, returns that observation; with a path
    segment that is not a number, or the number of no observation, it
    answers 404.  [GET /api/sessions/:key] returns the stored session of
    the key and answers 404 for an unknown key. *)
Theorem lookup_handlers (db : Db) :
  reachable db ->
  (forall o, In o (observations db) ->
             api_observations_get (showZ (id o)) db = (Ok (Send o), db)) /\
  (forall path, (parseInt path = None \/
                 exists i, parseInt path = Some i /\ getObservation db i = None) ->
             api_observations_get path db
             = (Ok (Status 404 "Observation not found"), db)) /\
  (forall s, In s (sessions db) ->
             api_sessions_get (session_key s) db = (Ok (Send s), db)) /\
  (forall key, getSession db key = None ->
             api_sessions_get key db = (Ok (Status 404 "Session not found"), db)).
Proof.
  intros Hreach.
  destruct (reachable_invariant db Hreach) as (_ & _ & _ & Hids & Hkeys).
  unfold api_observations_get, api_sessions_get, bind, query, ret.
  split; [|split; [|split]].
  - intros o Ho. rewrite parseInt_showZ. unfold getObservation.
    now rewrite (find_by_id _ o Hids Ho).
  - intros path [H | (i & H & Hnone)]; rewrite H; [reflexivity|].
    now rewrite Hnone.
  - intros s Hs. unfold getSession. now rewrite (find_by_key _ s Hkeys Hs).
  - intros key H. now rewrite H.
Qed.

(** X21.  [getSessionObservations] lists exactly the stored observations
    owned by the session, oldest first. *)
Theorem getSessionObservations_spec (db : Db) (sessionId : Z) :
  Permutation (getSessionObservations db sessionId)
              (filter (fun o => session_id o =? sessionId) (observations db)) /\
  (forall o, In o (getSessionObservations db sessionId) <->
             In o (observations db) /\ session_id o = sessionId) /\
  StronglySorted (fun a b => created_at a <= created_at b)
                 (getSessionObservations db sessionId) /\
  ((forall s, In s (sessions db) -> s_id s <> sessionId) -> reachable db ->
   getSessionObservations db sessionId = []).
Proof.
  unfold getSessionObservations.
  split; [apply orderBy_perm|]. split; [|split; [apply orderBy_asc_sorted|]].
  - intros o. rewrite orderBy_In, filter_In, Z.eqb_eq. tauto.
  - intros Hno Hreach. rewrite filter_all_false; [reflexivity|].
    intros o Ho. apply Z.eqb_neq. intros E.
    destruct (reachable_sessions db Hreach) as (_ & _ & _ & Hfk).
    rewrite Forall_forall in Hfk. specialize (Hfk o Ho).
    apply existsb_exists in Hfk. destruct Hfk as (s & Hs & Hid).
    apply Z.eqb_eq in Hid. apply (Hno s Hs). congruence.
Qed.

(** ** Auto-capture *)

Lemma truncate_length (t : string) (n : nat) :
  (String.length (truncate (Some t) n) <= n + 3)%nat.
Proof.
  unfold truncate. destruct t as [|c t]; [simpl; lia|].
  change (truthyStr (Some (String c t))) with (Some (String c t)). cbv iota beta.
  remember (String c t) as text.
  destruct (Nat.leb (String.length text) n) eqn:E.
  - apply Nat.leb_le in E. lia.
  - rewrite length_append, length_substring0. simpl String.length. lia.
Qed.

Lemma flat_map_at_most_one {A B : Type} (f : A -> list B) (l : list A) :
  (forall x, (List.length (f x) <= 1)%nat) ->
  (List.length (flat_map f l) <= List.length l)%nat.
Proof.
  intros H. induction l as [|x l IH]; simpl; [lia|].
  rewrite length_app. specialize (H x). lia.
Qed.

Lemma extractToolResults_input (messages : list Message) (result : ToolResult) :
  In result (extractToolResults messages) -> t_input result = "".
Proof.
  unfold extractToolResults. intros H.
  apply in_flat_map in H. destruct H as (msg & _ & H).
  destruct (String.eqb (role msg) "user"); [|destruct H].
  destruct (m_content msg) as [blocks|]; [|destruct H].
  apply in_flat_map in H. destruct H as (block & _ & H).
  destruct (String.eqb (b_type block) "tool_result"); [|destruct H].
  destruct H as [<- | []]. reflexivity.
Qed.

(** X20.  What the plugin's auto-capture posts after an agent run: nothing
    unless the worker is available, a session is current and the run
    succeeded; otherwise at most 10 observations, each for the current
    session, with an empty input, an output of at most 5003 characters, no
    summary and no token count.  Because the captured input is always
    empty, only the types bugfix, code_change, testing and tool_use are
    ever captured, each with the base importance of its type, which lies
    between 0.5 and 0.9. *)
Theorem captureRequests_spec (workerAvailable : bool) (currentSessionKey : option string)
    (success : bool) (messages : list Message) :
  (List.length (captureRequests workerAvailable currentSessionKey success messages)
   <= 10)%nat /\
  (workerAvailable && success = false \/ truthyStr currentSessionKey = None ->
   captureRequests workerAvailable currentSessionKey success messages = []) /\
  (forall body,
     In body (captureRequests workerAvailable currentSessionKey success messages) ->
     Some (ob_session_key body) = truthyStr currentSessionKey /\
     In (ob_type body) ["bugfix"; "code_change"; "testing"; "tool_use"] /\
     (exists x, ob_importance body = Some x /\
                lookup typeImportance (ob_type body) = Some x /\
                PrimFloat.leb 0.5 x = true /\ PrimFloat.leb x 0.9 = true) /\
     ob_input body = Some "" /\
     (exists out, ob_output body = Some out /\ Z.of_nat (String.length out) <= 5003) /\
     ob_summary body = None /\ ob_tokens body = None).
Proof.
  unfold captureRequests. split; [|split].
  - destruct (truthyStr currentSessionKey); [|simpl; lia].
    destruct (workerAvailable && success); [|simpl; lia].
    etransitivity; [apply flat_map_at_most_one|apply firstn_le_length].
    intros x. destruct (PrimFloat.ltb _ _); simpl; lia.
  - intros [H | H]; rewrite H; [|reflexivity].
    destruct (truthyStr currentSessionKey); reflexivity.
  - intros body Hin.
    destruct (truthyStr currentSessionKey) as [key|]; [|destruct Hin].
    destruct (workerAvailable && success); [|destruct Hin].
    apply in_flat_map in Hin. destruct Hin as (result & Hres & Hin).
    assert (Hres' : In result (extractToolResults messages)).
    { rewrite <- (firstn_skipn 10 (extractToolResults messages)).
      apply in_or_app. now left. }
    pose proof (extractToolResults_input _ _ Hres') as Hi.
    assert (Hout : Z.of_nat (String.length (truncate (Some (t_output result))
                                                     (Z.to_nat 5000))) <= 5003).
    { pose proof (truncate_length (t_output result) (Z.to_nat 5000)) as H. lia. }
    revert Hin Hout. rewrite Hi.
    generalize (truncate (Some (t_output result)) (Z.to_nat 5000)) as out.
    intros out. unfold classifyToolResult.
    change (toLowerCase "") with "".
    change (includes "" "fix") with false.
    change (includes "" "git") with false.
    change (includes "" "test") with false.
    cbn [orb andb].
    case_includes; cbn [c_importance c_type orb andb];
      intros Hin Hout; vm_compute in Hin;
      first [ destruct Hin as [<- | []];
              (split; [reflexivity|]);
              (split; [cbn; tauto|]);
              (split; [eexists; repeat split; reflexivity|]);
              (split; [reflexivity|]);
              (split; [exists out; split; [reflexivity|exact Hout]|]);
              split; reflexivity
            | contradiction ].
Qed.
